(** * To-do application (app.py): accounts, sessions and per-user tasks

    A shallow embedding of the Flask application in [app.py].  The request
    handlers become functions from the database, the session and the request
    to a response together with the new database and session.  Every SQL
    statement of the source becomes a function on tables (lists of rows).

    Modelling conventions.
    - A Python [str] is a list of Unicode code points ([N]).
    - Python integers are [Z].  The row ids of the tables are [Z] too: the
      id counter of the model is not bounded.  A task id that comes with a
      request is bound to a statement only when the engine's 64-bit INTEGER
      holds it ([bindable]).
    - Text compares by code point (SQLite's default BINARY collation).  The
      LIKE operator is modelled for text without NUL and for patterns within
      the engine's length limit; statements about search carry both as
      hypotheses.
    - Random salts and the clock are inputs of the operations that use them.
    - Templates are not rendered: a rendered page is the template's name
      with the values handed to it. *)

From Stdlib Require Import ZArith NArith Lia Permutation Sorted.
From stdpp Require Import base option list gmap strings.

Open Scope Z_scope.

(** ** Python strings *)

Module Py.

(** The whitespace code points of [str.isspace], which [str.strip()]
    removes. *)
Definition isspace (c : N) : bool :=
  ((9 <=? c) && (c <=? 13) || (28 <=? c) && (c <=? 32)
   || (c =? 133) || (c =? 160) || (c =? 5760)
   || (8192 <=? c) && (c <=? 8202)
   || (c =? 8232) || (c =? 8233) || (c =? 8239) || (c =? 8287)
   || (c =? 12288))%N.

Fixpoint lstrip (s : list N) : list N :=
  match s with
  | [] => []
  | c :: s' => if isspace c then lstrip s' else s
  end.

Fixpoint rstrip (s : list N) : list N :=
  match s with
  | [] => []
  | c :: s' =>
      match rstrip s' with
      | [] => if isspace c then [] else [c]
      | r => c :: r
      end
  end.

(** [s.strip()] *)
Definition strip (s : list N) : list N := rstrip (lstrip s).

(** Truth value of a string: [not s] holds of the empty string only. *)
Definition truthy (s : list N) : bool :=
  match s with [] => false | _ => true end.

(** Truth value of an integer: zero is false. *)
Definition int_truthy (n : Z) : bool := negb (n =? 0).

(** A string literal, given by its (ASCII) characters. *)
Definition lit (s : string) : list N :=
  List.map Ascii.N_of_ascii (String.list_ascii_of_string s).

(** Equality of strings, as a boolean. *)
Definition str_eqb (a b : list N) : bool := bool_decide (a = b).

(** [s.encode("utf-8")], for the code points that are scalar values. *)
Definition utf8_char (c : N) : list N :=
  (if c <? 128 then [c]
   else if c <? 2048 then [192 + c / 64; 128 + c mod 64]
   else if c <? 65536 then
     [224 + c / 4096; 128 + (c / 64) mod 64; 128 + c mod 64]
   else
     [240 + c / 262144; 128 + (c / 4096) mod 64; 128 + (c / 64) mod 64;
      128 + c mod 64])%N.

Definition encode_utf8 (s : list N) : list N := flat_map utf8_char s.

End Py.

(** ** SQL text operators *)

Module Sql.

(** Lower-case folding of the LIKE operator: ASCII letters only. *)
Definition lower (c : N) : N :=
  if ((65 <=? c) && (c <=? 90))%N then (c + 32)%N else c.

Definition percent : N := 37%N.
Definition underscore : N := 95%N.

(** The comparison of LIKE: [%] stands for any run of characters, [_] for
    exactly one character, every other character for itself up to ASCII
    letter case (the engine's default; [app.py] does not set
    [case_sensitive_like] and gives no ESCAPE character). *)
Fixpoint like_match (p t : list N) : bool :=
  match p with
  | [] => match t with [] => true | _ => false end
  | c :: p' =>
      if (c =? percent)%N then
        (fix any (t : list N) : bool :=
           like_match p' t
           || match t with [] => false | _ :: t' => any t' end) t
      else
        match t with
        | [] => false
        | d :: t' =>
            ((c =? underscore)%N || (lower c =? lower d)%N)
            && like_match p' t'
        end
  end.

(** What the engine's LIKE reads of a text value: the characters before
    the first NUL. *)
Fixpoint c_string (s : list N) : list N :=
  match s with
  | [] => []
  | c :: s' => if (c =? 0)%N then [] else c :: c_string s'
  end.

(** [t LIKE p], for a pattern within the engine's length limit. *)
Definition like (p t : list N) : bool := like_match (c_string p) (c_string t).

(** Text comparison [a <= b] under the BINARY collation. *)
Fixpoint text_leb (a b : list N) : bool :=
  match a, b with
  | [], _ => true
  | _ :: _, [] => false
  | x :: a', y :: b' =>
      if (x <? y)%N then true
      else if (x =? y)%N then text_leb a' b' else false
  end.

Definition text_ltb (a b : list N) : bool := negb (text_leb b a).

End Sql.

(** ** The database *)

(** Modelled from the spec: [schema.sql] is not among the sources.  The two
    tables are those of the storage interface, [users(id, username UNIQUE,
    password_hash, created_at)] and [todos(id, user_id REFERENCES users(id),
    title, description, due_date, done, created_at)], with integer primary
    keys that the engine assigns on insertion. *)
Record user_row := {
  users_id : Z;
  username : list N;
  password_hash : list N;
  users_created_at : list N
}.

Record todo_row := {
  todos_id : Z;
  user_id : Z;
  title : list N;
  description : list N;
  due_date : option (list N);
  done : Z;
  created_at : list N
}.

Record database := {
  users : list user_row;
  todos : list todo_row
}.

Definition empty_db : database := {| users := []; todos := [] |}.

(** What executing an INSERT gives: the new table contents, or
    [sqlite3.IntegrityError] when a constraint rejects the row. *)
Inductive outcome (A : Type) : Type :=
| Ok (a : A)
| IntegrityError.
Arguments Ok {A} a.
Arguments IntegrityError {A}.

(** The row id given to an inserted row: one more than the largest in the
    table, 1 in an empty table. *)
Definition next_rowid (ids : list Z) : Z := 1 + fold_right Z.max 0 ids.

(** [INSERT INTO users (username, password_hash, created_at) VALUES (?, ?, ?)] *)
Definition insert_user (db : database) (name hash now : list N)
  : outcome database :=
  if existsb (fun r => Py.str_eqb (username r) name) (users db)
  then IntegrityError
  else Ok {| users := users db ++
                      [{| users_id := next_rowid (List.map users_id (users db));
                          username := name;
                          password_hash := hash;
                          users_created_at := now |}];
             todos := todos db |}.

(** [SELECT id, password_hash FROM users WHERE username = ?], first row *)
Definition select_user (db : database) (name : list N) : option user_row :=
  List.find (fun r => Py.str_eqb (username r) name) (users db).

(** [ORDER BY done, created_at DESC]: the order of two rows. *)
Definition order_leb (a b : todo_row) : bool :=
  (done a <? done b)
  || ((done a =? done b) && Sql.text_leb (created_at b) (created_at a)).

Fixpoint insert_by (leb : todo_row -> todo_row -> bool) (x : todo_row)
  (l : list todo_row) : list todo_row :=
  match l with
  | [] => [x]
  | y :: l' => if leb x y then x :: l else y :: insert_by leb x l'
  end.

(** The engine's sort, as a stable insertion sort over the table order.
    (SQL leaves the order of rows with equal keys open; no result below
    depends on it.) *)
Definition order_by (leb : todo_row -> todo_row -> bool) (l : list todo_row)
  : list todo_row :=
  fold_right (insert_by leb) [] l.

(** [SELECT * FROM todos WHERE user_id = ? ORDER BY done, created_at DESC] *)
Definition select_todos (db : database) (uid : Z) : list todo_row :=
  order_by order_leb (List.filter (fun r => user_id r =? uid) (todos db)).

(** [SELECT * FROM todos WHERE user_id = ? AND (title LIKE ? OR
    description LIKE ?) ORDER BY done, created_at DESC] *)
Definition select_todos_like (db : database) (uid : Z) (pat : list N)
  : list todo_row :=
  order_by order_leb
    (List.filter (fun r => (user_id r =? uid)
                           && (Sql.like pat (title r)
                               || Sql.like pat (description r)))
       (todos db)).

(** [INSERT INTO todos (user_id, title, description, due_date, done,
    created_at) VALUES (?, ?, ?, ?, 0, ?)]; the foreign key on [user_id] is
    enforced ([PRAGMA foreign_keys = ON] in [get_db]). *)
Definition insert_todo (db : database) (uid : Z) (ttl descr : list N)
  (due : option (list N)) (now : list N) : outcome database :=
  if existsb (fun r => users_id r =? uid) (users db)
  then Ok {| users := users db;
             todos := todos db ++
                      [{| todos_id := next_rowid (List.map todos_id (todos db));
                          user_id := uid;
                          title := ttl;
                          description := descr;
                          due_date := due;
                          done := 0;
                          created_at := now |}] |}
  else IntegrityError.

(** [SELECT * FROM todos WHERE id = ? AND user_id = ?], first row *)
Definition select_todo (db : database) (task_id uid : Z) : option todo_row :=
  List.find (fun r => (todos_id r =? task_id) && (user_id r =? uid)) (todos db).

(** [UPDATE todos SET title = ?, description = ?, due_date = ?, done = ?
    WHERE id = ?] *)
Definition update_todo (db : database) (task_id : Z) (ttl descr : list N)
  (due : option (list N)) (dn : Z) : database :=
  {| users := users db;
     todos := List.map
                (fun r => if todos_id r =? task_id
                          then {| todos_id := todos_id r;
                                  user_id := user_id r;
                                  title := ttl;
                                  description := descr;
                                  due_date := due;
                                  done := dn;
                                  created_at := created_at r |}
                          else r)
                (todos db) |}.

(** [DELETE FROM todos WHERE id = ? AND user_id = ?] *)
Definition delete_todo (db : database) (task_id uid : Z) : database :=
  {| users := users db;
     todos := List.filter
                (fun r => negb ((todos_id r =? task_id) && (user_id r =? uid)))
                (todos db) |}.

(** A row with its [done] column set. *)
Definition set_done (dn : Z) (r : todo_row) : todo_row :=
  {| todos_id := todos_id r;
     user_id := user_id r;
     title := title r;
     description := description r;
     due_date := due_date r;
     done := dn;
     created_at := created_at r |}.

(** [UPDATE todos SET done = ? WHERE id = ?] *)
Definition update_done (db : database) (task_id : Z) (dn : Z) : database :=
  {| users := users db;
     todos := List.map
                (fun r => if todos_id r =? task_id then set_done dn r else r)
                (todos db) |}.

(** ** Session, request and response *)

(** Values kept in the session: the user's id and name. *)
Inductive sval : Type :=
| VInt (n : Z)
| VStr (s : list N).

(** Flask's session: the dictionary the program reads and writes, and the
    queue of flashed messages, which Flask keeps in the same session (under
    its own key) and which [session.clear()] therefore empties too. *)
Record session := {
  data : gmap string sval;
  flashes : list (string * string)
}.

Definition session_clear (s : session) : session :=
  {| data := ∅; flashes := [] |}.

Definition session_set (k : string) (v : sval) (s : session) : session :=
  {| data := <[k := v]> (data s); flashes := flashes s |}.

(** [flash(message, category)] *)
Definition flash (message category : string) (s : session) : session :=
  {| data := data s; flashes := flashes s ++ [(category, message)] |}.

(** [session["user_id"]]: an integer whenever present, since its only
    assignment, in [login], stores a row id. *)
Definition session_user_id (s : session) : option Z :=
  match data s !! "user_id" with
  | Some (VInt n) => Some n
  | _ => None
  end.

Inductive http_method := GET | POST.

Definition method_eqb (a b : http_method) : bool :=
  match a, b with
  | GET, GET | POST, POST => true
  | _, _ => false
  end.

Record request := {
  method : http_method;
  form : gmap string (list N);
  args : gmap string (list N);
  path : list N
}.

(** [d.get(k, "")] *)
Definition get_or_empty (d : gmap string (list N)) (k : string) : list N :=
  default [] (d !! k).

(** Targets of [redirect]: [url_for] of an endpoint, or the [next] query
    parameter taken as it is. *)
Inductive url : Type :=
| url_register
| url_login
| url_login_next (next : list N)
| url_dashboard
| url_add_task
| url_edit_task (task_id : Z)
| url_raw (target : list N).

(** Pages of [render_template], with the values passed to the template. *)
Inductive page : Type :=
| register_html
| login_html
| dashboard_html (todos : list todo_row) (q : list N)
| task_form_html (action : string) (task : option todo_row).

Inductive response : Type :=
| Redirect (to : url)
| Render (p : page)
| Abort404
| MethodNotAllowed
| ServerError.

Definition handler : Type :=
  database -> session -> request -> response * database * session.

Definition has_newline (s : list N) : bool :=
  existsb (fun c => (c =? 10) || (c =? 13))%N s.

(** [redirect(location)]: the response carries the location in a header,
    and werkzeug refuses a header value with a line break (ValueError,
    which no view catches).  The locations made by [url_for] have none. *)
Definition redirect (to : url) : response :=
  match to with
  | url_raw target => if has_newline target then ServerError else Redirect to
  | _ => Redirect to
  end.

(** [request.args.get("next") or url_for("dashboard")] *)
Definition next_or_dashboard (req : request) : url :=
  match args req !! "next" with
  | Some next_page =>
      if Py.truthy next_page then url_raw next_page else url_dashboard
  | None => url_dashboard
  end.

(** The largest row id of the engine is [2^63 - 1]. *)
Definition fits_int64 (n : Z) : bool := (- 2 ^ 63 <=? n) && (n <? 2 ^ 63).

(** Binding a task id to a statement: [sqlite3] raises OverflowError for a
    Python integer that the engine's 64-bit INTEGER cannot hold.  The ids
    in a table are engine integers; as the id counter of the model grows
    without bound, an id that is in the table counts as one the engine
    holds. *)
Definition bindable (db : database) (task_id : Z) : bool :=
  fits_int64 task_id || existsb (fun r => todos_id r =? task_id) (todos db).

(** ** The application *)

Section App.

(** [werkzeug.security]: the salted hash of a password, the salt being
    drawn by the library, and the check of a password against a hash. *)
Variable generate_password_hash : list N -> list N -> list N.
Variable check_password_hash : list N -> list N -> bool.

(** *** Auth helpers *)

Definition create_user (db : database) (name password salt now : list N)
  : bool * database :=
  match insert_user db name (generate_password_hash password salt) now with
  | Ok db' => (true, db')
  | IntegrityError => (false, db)
  end.

Definition authenticate (db : database) (name password : list N)
  : option Z :=
  match select_user db name with
  | Some row =>
      if check_password_hash (password_hash row) password
      then Some (users_id row)
      else None
  | None => None
  end.

Definition login_required (fn : handler) : handler :=
  fun db s req =>
    match data s !! "user_id" with
    | None => (Redirect (url_login_next (path req)), db, s)
    | Some _ => fn db s req
    end.

(** *** Routes: auth *)

Definition register (salt now : list N) : handler :=
  fun db s req =>
    match method req with
    | POST =>
        let name := Py.strip (get_or_empty (form req) "username") in
        let password := get_or_empty (form req) "password" in
        let password2 := get_or_empty (form req) "password2" in
        if negb (Py.truthy name) || negb (Py.truthy password) then
          (Redirect url_register, db,
           flash "Username and password are required." "danger" s)
        else if negb (Py.str_eqb password password2) then
          (Redirect url_register, db,
           flash "Passwords do not match." "danger" s)
        else
          let '(ok, db') := create_user db name password salt now in
          if negb ok then
            (Redirect url_register, db',
             flash "Username already taken." "danger" s)
          else
            (Redirect url_login, db',
             flash "Account created. Please login." "success" s)
    | GET => (Render register_html, db, s)
    end.

Definition login : handler :=
  fun db s req =>
    match method req with
    | POST =>
        let name := Py.strip (get_or_empty (form req) "username") in
        let password := get_or_empty (form req) "password" in
        let invalid :=
          (Redirect url_login, db,
           flash "Invalid username or password." "danger" s) in
        match authenticate db name password with
        | Some uid =>
            if Py.int_truthy uid then
              let s1 := session_clear s in
              let s2 := session_set "user_id" (VInt uid) s1 in
              let s3 := session_set "username" (VStr name) s2 in
              let s4 := flash "Logged in successfully." "success" s3 in
              (redirect (next_or_dashboard req), db, s4)
            else invalid
        | None => invalid
        end
    | GET => (Render login_html, db, s)
    end.

Definition logout : handler :=
  fun db s req =>
    (Redirect url_login, db, flash "Logged out." "info" (session_clear s)).

(** *** Todo CRUD and search *)

(** The body of a view behind [login_required] reads [session["user_id"]];
    the guard has checked that the key is present.  (The program never
    stores anything but an integer under that key; the model answers such
    a session with a server error.) *)
Definition with_user (body : Z -> handler) : handler :=
  fun db s req =>
    match session_user_id s with
    | Some uid => body uid db s req
    | None => (ServerError, db, s)
    end.

Definition dashboard : handler :=
  login_required (with_user (fun uid db s req =>
    let search := Py.strip (get_or_empty (args req) "q") in
    let rows :=
      if Py.truthy search then
        let like := [Sql.percent] ++ search ++ [Sql.percent] in
        select_todos_like db uid like
      else
        select_todos db uid in
    (Render (dashboard_html rows search), db, s))).

(** [x.strip() or None] *)
Definition strip_or_none (x : list N) : option (list N) :=
  let y := Py.strip x in
  if Py.truthy y then Some y else None.

Definition add_task (now : list N) : handler :=
  login_required (with_user (fun uid db s req =>
    match method req with
    | POST =>
        let ttl := Py.strip (get_or_empty (form req) "title") in
        let descr := Py.strip (get_or_empty (form req) "description") in
        let due := strip_or_none (get_or_empty (form req) "due_date") in
        if negb (Py.truthy ttl) then
          (Redirect url_add_task, db, flash "Title is required." "danger" s)
        else
          match insert_todo db uid ttl descr due now with
          | Ok db' =>
              (Redirect url_dashboard, db', flash "Task added." "success" s)
          | IntegrityError => (ServerError, db, s)
          end
    | GET => (Render (task_form_html "Add" None), db, s)
    end)).

Definition edit_task (task_id : Z) : handler :=
  login_required (with_user (fun uid db s req =>
    if negb (bindable db task_id) then (ServerError, db, s) else
    match select_todo db task_id uid with
    | None => (Abort404, db, s)
    | Some task =>
        match method req with
        | POST =>
            let ttl := Py.strip (get_or_empty (form req) "title") in
            let descr := Py.strip (get_or_empty (form req) "description") in
            let due := strip_or_none (get_or_empty (form req) "due_date") in
            let dn :=
              if bool_decide (form req !! "done" = Some (Py.lit "on"))
              then 1 else 0 in
            if negb (Py.truthy ttl) then
              (Redirect (url_edit_task task_id), db,
               flash "Title is required." "danger" s)
            else
              (Redirect url_dashboard,
               update_todo db task_id ttl descr due dn,
               flash "Task updated." "success" s)
        | GET => (Render (task_form_html "Edit" (Some task)), db, s)
        end
    end)).

Definition delete_task (task_id : Z) : handler :=
  login_required (with_user (fun uid db s req =>
    if negb (bindable db task_id) then (ServerError, db, s) else
    (Redirect url_dashboard, delete_todo db task_id uid,
     flash "Task deleted." "info" s))).

Definition toggle_task (task_id : Z) : handler :=
  login_required (with_user (fun uid db s req =>
    if negb (bindable db task_id) then (ServerError, db, s) else
    match select_todo db task_id uid with
    | None => (Abort404, db, s)
    | Some row =>
        let new_done := if Py.int_truthy (done row) then 0 else 1 in
        (Redirect url_dashboard, update_done db task_id new_done, s)
    end)).

(** *** The route table *)

Inductive endpoint : Type :=
| ep_register (salt now : list N)
| ep_login
| ep_logout
| ep_dashboard
| ep_add_task (now : list N)
| ep_edit_task (task_id : Z)
| ep_delete_task (task_id : Z)
| ep_toggle_task (task_id : Z).

(** A view restricted to one method; other requests are answered 405. *)
Definition only (m : http_method) (fn : handler) : handler :=
  fun db s req =>
    if method_eqb (method req) m then fn db s req
    else (MethodNotAllowed, db, s).

(** [@app.route(..., methods=[...])] *)
Definition route (e : endpoint) : handler :=
  match e with
  | ep_register salt now => register salt now
  | ep_login => login
  | ep_logout => only GET logout
  | ep_dashboard => only GET dashboard
  | ep_add_task now => add_task now
  | ep_edit_task task_id => edit_task task_id
  | ep_delete_task task_id => only POST (delete_task task_id)
  | ep_toggle_task task_id => only POST (toggle_task task_id)
  end.

(** The databases the application reaches from the empty one, whatever the
    requests and the sessions they come with. *)
Inductive reachable : database -> Prop :=
| reachable_init : reachable empty_db
| reachable_step db e s req :
    reachable db -> reachable (route e db s req).1.2.

End App.

(** ** Invariants and notions used in the statements *)

(** The state of a database that the application built: primary keys are
    unique and positive, usernames are unique, and [done] is 0 or 1. *)
Record db_wf (db : database) : Prop := {
  wf_users_id : NoDup (List.map users_id (users db));
  wf_users_pos : Forall (fun r => 1 <= users_id r) (users db);
  wf_username : NoDup (List.map username (users db));
  wf_todos_id : NoDup (List.map todos_id (todos db));
  wf_todos_pos : Forall (fun r => 1 <= todos_id r) (todos db);
  wf_owner : Forall (fun r => In (user_id r) (List.map users_id (users db)))
               (todos db);
  wf_title : Forall (fun r => title r <> []) (todos db);
  wf_done : Forall (fun r => done r = 0 \/ done r = 1) (todos db)
}.








(** The rows of a rendered dashboard. *)
Definition listing (db : database) (s : session) (req : request)
  : option (list todo_row) :=
  match dashboard db s req with
  | (Render (dashboard_html rows _), _, _) => Some rows
  | _ => None
  end.


(** The order of [ORDER BY done, created_at DESC], as a relation. *)
Definition order_rel (a b : todo_row) : Prop := order_leb a b = true.

(** Descending order of creation time. *)
Definition newer_first (a b : todo_row) : Prop :=
  Sql.text_leb (created_at b) (created_at a) = true.

(** A request to the given form, query string and method. *)
Definition mk_request (m : http_method) (f a : list (string * list N))
  : request :=
  {| method := m; form := list_to_map f; args := list_to_map a; path := [] |}.

(** The session of a logged-in user. *)
Definition session_of (uid : Z) (name : list N) : session :=
  {| data := {[ "user_id" := VInt uid; "username" := VStr name ]};
     flashes := [] |}.

(** The same request with another submitted username. *)
Definition with_username (u : list N) (req : request) : request :=
  {| method := method req;
     form := <["username" := u]> (form req);
     args := args req;
     path := path req |}.

(** ** The hash library

    [werkzeug.security] is a library, not part of the sources.  Its
    methods (scrypt, PBKDF2) derive a key from the password with HMAC, the
    password being the HMAC key.  The model keeps that much: how HMAC
    prepares its key, and that the stored string carries the salt and the
    derived key; the rest of the derivation is a function left open. *)

Module Werkzeug.

Section Kdf.

(** The derivation, as a function of the prepared key block and the salt. *)
Variable prf : list N -> list N -> list N.
(** The hash that stands for a key longer than a block. *)
Variable long_key : list N -> list N.

Definition block_size : nat := 64.

(** HMAC replaces a key longer than a block by its hash, then pads the
    key with zero bytes up to the block size. *)
Definition hmac_key (key : list N) : list N :=
  let k := if (length key <=? block_size)%nat then key else long_key key in
  k ++ repeat 0%N (block_size - length k).

Definition derive (password salt : list N) : list N :=
  prf (hmac_key (Py.encode_utf8 password)) salt.

(** The stored string: the salt, marked off by its length, and the key. *)
Definition generate_password_hash (password salt : list N) : list N :=
  N.of_nat (length salt) :: salt ++ derive password salt.

Definition check_password_hash (pwhash password : list N) : bool :=
  match pwhash with
  | [] => false
  | n :: rest =>
      Py.str_eqb (drop (N.to_nat n) rest)
        (derive password (take (N.to_nat n) rest))
  end.

End Kdf.

(** An instance to run the handlers with. *)
Definition sample_prf (key salt : list N) : list N := salt ++ key.
Definition sample_long_key (key : list N) : list N := take 32 key.

End Werkzeug.

(** Registration and login as the specification words them: after
    [create_user] accepts a username and password, [authenticate] with the
    same username and password returns the id of the user just created,
    and with the same username and any different password returns
    [None]. *)
Definition roundtrip_rejects_other (generate check : _) (db : database)
  (name password salt now : list N) : Prop :=
  forall db',
    create_user generate db name password salt now = (true, db') ->
    (exists row,
       users db' = users db ++ [row]
       /\ authenticate check db' name password = Some (users_id row))
    /\ forall other,
         other <> password -> authenticate check db' name other = None.


(** Text without a NUL character. *)
Definition nul_free (t : list N) : bool := forallb (fun c => negb (c =? 0)%N) t.

(** The pattern [%q%] is within the engine's limit of 50000 bytes. *)
Definition within_like_limit (q : list N) : bool :=
  (Z.of_nat (length (Py.encode_utf8 q)) + 2 <=? 50000).


(** A hash library to run the handlers with: the "hash" is the salt's
    length, the salt and the password. *)
Definition plain_generate (password salt : list N) : list N :=
  N.of_nat (length salt) :: salt ++ password.

Definition plain_check (pwhash candidate : list N) : bool :=
  match pwhash with
  | [] => false
  | n :: rest => Py.str_eqb (drop (N.to_nat n) rest) candidate
  end.

(** The parts of what a handler returns. *)
Definition resp_of (r : response * database * session) : response := r.1.1.
Definition db_of (r : response * database * session) : database := r.1.2.
Definition sess_of (r : response * database * session) : session := r.2.

(** ** A run of the application

    Two users register, alice and bob; alice adds three tasks and completes
    the second one. *)

Definition no_session : session := {| data := ∅; flashes := [] |}.

Definition registration (name password : string) : request :=
  mk_request POST
    [("username", Py.lit name); ("password", Py.lit password);
     ("password2", Py.lit password)] [].

Definition credentials (name password : string) : request :=
  mk_request POST
    [("username", Py.lit name); ("password", Py.lit password)] [].

Definition new_task (ttl : string) : request :=
  mk_request POST [("title", Py.lit ttl)] [].

Definition search_for (q : string) : request :=
  mk_request GET [] [("q", Py.lit q)].

Definition db_alice : database :=
  db_of (register plain_generate (Py.lit "k3Jx") (Py.lit "2024-05-01T09:00:00.120000")
           empty_db no_session (registration " alice " "pw123")).

Definition db_users : database :=
  db_of (register plain_generate (Py.lit "Qz8w") (Py.lit "2024-05-01T09:05:00.450000")
           db_alice no_session (registration "bob" "pw456")).

Definition alice : session := session_of 1 (Py.lit "alice").
Definition bob : session := session_of 2 (Py.lit "bob").

Definition db_milk : database :=
  db_of (add_task (Py.lit "2024-05-01T10:00:00.000001") db_users alice
           (new_task "Buy Milk")).

Definition milk_row : todo_row :=
  {| todos_id := 1;
     user_id := 1;
     title := Py.lit "Buy Milk";
     description := [];
     due_date := None;
     done := 0;
     created_at := Py.lit "2024-05-01T10:00:00.000001" |}.

Definition db_two : database :=
  db_of (add_task (Py.lit "2024-05-01T11:00:00.000002") db_milk alice
           (new_task "Call the bank")).

Definition db_two_done : database :=
  db_of (toggle_task 2 db_two alice (mk_request POST [] [])).

Definition db_three : database :=
  db_of (add_task (Py.lit "2024-05-01T12:00:00.000003") db_two_done alice
           (new_task "Water plants")).

Definition bank_row : todo_row :=
  {| todos_id := 2;
     user_id := 1;
     title := Py.lit "Call the bank";
     description := [];
     due_date := None;
     done := 1;
     created_at := Py.lit "2024-05-01T11:00:00.000002" |}.

Definition plants_row : todo_row :=
  {| todos_id := 3;
     user_id := 1;
     title := Py.lit "Water plants";
     description := [];
     due_date := None;
     done := 0;
     created_at := Py.lit "2024-05-01T12:00:00.000003" |}.

Definition db_carol : database :=
  db_of (register plain_generate (Py.lit "Zs1p") (Py.lit "2024-05-02T08:00:00")
           db_users no_session
           (with_username (Py.lit " carol ") (registration "" " pw "))).

(** alice registered with the hash library model. *)
Definition db_kdf : database :=
  (create_user
     (Werkzeug.generate_password_hash Werkzeug.sample_prf
        Werkzeug.sample_long_key)
     empty_db (Py.lit "alice") (Py.lit "pw123") (Py.lit "k3Jx")
     (Py.lit "2024-05-01T09:00:00.120000")).2.

(** A session left by bob, with a key of its own and a queued message. *)
Definition stale_session : session :=
  {| data := {[ "user_id" := VInt 2; "username" := VStr (Py.lit "bob");
                "theme" := VStr (Py.lit "dark") ]};
     flashes := [("info", "Task deleted.")] |}.

(** A login request with a [next] parameter. *)
Definition credentials_next (name password : string) (next : list N)
  : request :=
  {| method := POST;
     form := list_to_map
               [("username", Py.lit name); ("password", Py.lit password)];
     args := {[ "next" := next ]};
     path := [] |}.

Definition alice_row : user_row :=
  {| users_id := 1;
     username := Py.lit "alice";
     password_hash := plain_generate (Py.lit "pw123") (Py.lit "k3Jx");
     users_created_at := Py.lit "2024-05-01T09:00:00.120000" |}.

(** * Properties *)

(** ** Strings *)

Module PyFacts.
Import Py.

Lemma lstrip_forallb s : forallb isspace (lstrip s) = forallb isspace s.
Proof.
  induction s as [|c s IH]; simpl; [reflexivity|].
  destruct (isspace c) eqn:E; simpl; [exact IH|].
  now rewrite E.
Qed.

Lemma rstrip_nil s : rstrip s = [] <-> forallb isspace s = true.
Proof.
  induction s as [|c s IH]; simpl; [tauto|].
  destruct (rstrip s) as [|d r] eqn:E.
  - destruct (isspace c); simpl; [tauto|].
    split; discriminate.
  - split; [discriminate|].
    intros H. apply andb_prop in H as [_ H].
    apply IH in H. discriminate.
Qed.

Lemma strip_nil s : strip s = [] <-> forallb isspace s = true.
Proof. unfold strip. now rewrite rstrip_nil, lstrip_forallb. Qed.

Lemma truthy_strip s : truthy (strip s) = negb (forallb isspace s).
Proof.
  destruct (forallb isspace s) eqn:E.
  - apply strip_nil in E. now rewrite E.
  - destruct (strip s) eqn:F; [|reflexivity].
    apply strip_nil in F. congruence.
Qed.

Lemma lstrip_head s :
  lstrip s = [] \/ exists c r, lstrip s = c :: r /\ isspace c = false.
Proof.
  induction s as [|c s IH]; simpl; [now left|].
  destruct (isspace c) eqn:E; [exact IH|].
  right. now exists c, s.
Qed.

Lemma rstrip_head c s :
  isspace c = false -> exists r, rstrip (c :: s) = c :: r.
Proof.
  intros E. simpl. destruct (rstrip s) as [|d r].
  - rewrite E. now exists [].
  - now exists (d :: r).
Qed.

Lemma rstrip_idem s : rstrip (rstrip s) = rstrip s.
Proof.
  induction s as [|c s IH]; simpl; [reflexivity|].
  destruct (rstrip s) as [|d r] eqn:E.
  - destruct (isspace c) eqn:F; simpl; [reflexivity|].
    now rewrite F.
  - change (rstrip (c :: d :: r)) with
      (match rstrip (d :: r) with
       | [] => if isspace c then [] else [c]
       | x :: r' => c :: x :: r'
       end).
    now rewrite IH.
Qed.

(** Stripping is idempotent. *)
Lemma strip_idem s : strip (strip s) = strip s.
Proof.
  unfold strip.
  destruct (lstrip_head s) as [E|(c & r & E & F)]; rewrite E.
  - reflexivity.
  - destruct (rstrip_head c r F) as [r' E'].
    rewrite E'. simpl lstrip. rewrite F, <- E'.
    apply rstrip_idem.
Qed.

Lemma str_eqb_eq a b : str_eqb a b = true <-> a = b.
Proof. unfold str_eqb. apply bool_decide_eq_true. Qed.

Lemma str_eqb_refl a : str_eqb a a = true.
Proof. now apply str_eqb_eq. Qed.

Lemma str_eqb_neq a b : str_eqb a b = false <-> a <> b.
Proof. unfold str_eqb. apply bool_decide_eq_false. Qed.

End PyFacts.

(** ** LIKE and text order *)

Module SqlFacts.
Import Sql.

Lemma like_percent t : like_match [percent] t = true.
Proof.
  induction t as [|d t IH]; [reflexivity|].
  simpl in *. exact IH.
Qed.

Lemma c_string_nul_free t : nul_free t = true -> c_string t = t.
Proof.
  induction t as [|c t IH]; simpl; [reflexivity|].
  intros H. apply andb_prop in H as [Hc Ht].
  apply negb_true_iff in Hc. rewrite Hc. now rewrite IH.
Qed.






Lemma text_leb_refl a : text_leb a a = true.
Proof.
  induction a as [|x a IH]; simpl; [reflexivity|].
  now rewrite N.ltb_irrefl, N.eqb_refl.
Qed.

Lemma text_leb_total a b : text_leb a b = true \/ text_leb b a = true.
Proof.
  revert b. induction a as [|x a IH]; intros [|y b]; simpl; auto.
  destruct (N.ltb_spec x y), (N.ltb_spec y x); auto; try lia.
  assert (x = y) as -> by lia. rewrite N.eqb_refl. apply IH.
Qed.

Lemma text_leb_trans a b c :
  text_leb a b = true -> text_leb b c = true -> text_leb a c = true.
Proof.
  revert b c. induction a as [|x a IH]; intros [|y b] [|z c]; simpl;
    try discriminate; auto.
  destruct (N.ltb_spec x y), (N.ltb_spec y z), (N.ltb_spec x z);
    auto; try lia;
    destruct (N.eqb_spec x y), (N.eqb_spec y z), (N.eqb_spec x z);
    try discriminate; try lia; eauto.
Qed.

End SqlFacts.

(** ** Tables *)

Section TableFacts.

Lemma insert_by_perm leb x l : Permutation (insert_by leb x l) (x :: l).
Proof.
  induction l as [|y l IH]; simpl; [reflexivity|].
  destruct (leb x y); [reflexivity|].
  rewrite IH. apply perm_swap.
Qed.

Lemma order_by_perm leb l : Permutation (order_by leb l) l.
Proof.
  induction l as [|x l IH]; simpl; [reflexivity|].
  rewrite insert_by_perm. now constructor.
Qed.

Lemma order_by_In leb l t : In t (order_by leb l) <-> In t l.
Proof.
  split; apply Permutation_in;
    [apply order_by_perm | symmetry; apply order_by_perm].
Qed.

Lemma order_leb_total a b : order_leb a b = true \/ order_leb b a = true.
Proof.
  unfold order_leb.
  destruct (Z.ltb_spec (done a) (done b)); [now left|].
  destruct (Z.ltb_spec (done b) (done a)); [now right|].
  assert (E : done a = done b) by lia.
  rewrite E, Z.eqb_refl. simpl.
  destruct (SqlFacts.text_leb_total (created_at b) (created_at a)); auto.
Qed.

Lemma order_leb_trans a b c :
  order_leb a b = true -> order_leb b c = true -> order_leb a c = true.
Proof.
  unfold order_leb. rewrite !orb_true_iff, !andb_true_iff.
  rewrite !Z.ltb_lt, !Z.eqb_eq.
  intros [H1|[H1 T1]] [H2|[H2 T2]]; try (left; lia).
  right. split; [lia|]. eapply SqlFacts.text_leb_trans; eassumption.
Qed.

Lemma insert_by_sorted x l :
  Sorted order_rel l -> Sorted order_rel (insert_by order_leb x l).
Proof.
  induction l as [|y l IH]; intros H; simpl.
  - repeat constructor.
  - destruct (order_leb x y) eqn:E.
    + constructor; [assumption|]. now constructor.
    + inversion_clear H as [|? ? Hs Hh].
      constructor; [now apply IH|].
      assert (Hyx : order_rel y x).
      { destruct (order_leb_total x y); [congruence|assumption]. }
      destruct l as [|z l]; simpl.
      * now constructor.
      * destruct (order_leb x z); constructor; [assumption|].
        now inversion_clear Hh.
Qed.

Lemma order_by_sorted l : StronglySorted order_rel (order_by order_leb l).
Proof.
  apply Sorted_StronglySorted.
  - intros a b c. apply order_leb_trans.
  - induction l as [|x l IH]; simpl; [constructor|].
    now apply insert_by_sorted.
Qed.

Lemma order_rel_done a b : order_rel a b -> done a <= done b.
Proof.
  unfold order_rel, order_leb.
  rewrite orb_true_iff, andb_true_iff, Z.ltb_lt, Z.eqb_eq. lia.
Qed.

Lemma order_rel_newer a b :
  order_rel a b -> done a = done b -> newer_first a b.
Proof.
  unfold order_rel, order_leb, newer_first.
  rewrite orb_true_iff, andb_true_iff, Z.ltb_lt. intros [H|[_ H]] E.
  - lia.
  - exact H.
Qed.

(** A list sorted by [ORDER BY done, created_at DESC] whose [done] values
    are 0 or 1 is the incomplete rows followed by the complete ones, each
    group newest first. *)
Lemma sorted_split l :
  StronglySorted order_rel l ->
  Forall (fun r => done r = 0 \/ done r = 1) l ->
  exists inc comp,
    l = inc ++ comp
    /\ Forall (fun r => done r = 0) inc
    /\ Forall (fun r => done r = 1) comp
    /\ StronglySorted newer_first inc
    /\ StronglySorted newer_first comp.
Proof.
  induction 1 as [|a l Hs IH Ha]; intros Hd.
  - exists [], []. repeat split; constructor.
  - inversion_clear Hd as [|? ? Hda Hdl].
    destruct (IH Hdl) as (inc & comp & -> & Hi & Hc & Si & Sc).
    destruct Hda as [Hda|Hda].
    + exists (a :: inc), comp. repeat split; try assumption.
      * now constructor.
      * constructor; [assumption|].
        apply Forall_app in Ha as [Ha _].
        rewrite List.Forall_forall in *. intros b Hb.
        apply order_rel_newer; [now apply Ha|].
        rewrite (Hi b Hb). assumption.
    + assert (inc = []) as ->.
      { destruct inc as [|b inc]; [reflexivity|].
        inversion_clear Hi as [|? ? Hb _].
        inversion_clear Ha as [|? ? Hab _].
        apply order_rel_done in Hab. lia. }
      exists [], (a :: comp). repeat split; try assumption.
      * now constructor.
      * constructor; [assumption|].
        simpl in Ha. rewrite List.Forall_forall in *. intros b Hb.
        apply order_rel_newer; [now apply Ha|].
        rewrite (Hc b Hb). assumption.
Qed.

Lemma find_none_iff {A} (f : A -> bool) l :
  List.find f l = None <-> forall x, In x l -> f x = false.
Proof.
  split; [apply List.find_none|].
  induction l as [|y l IH]; intros H; simpl; [reflexivity|].
  rewrite (H y) by now left.
  apply IH. intros x Hx. apply H. now right.
Qed.

Lemma filter_all {A} (f : A -> bool) l :
  (forall x, In x l -> f x = true) -> List.filter f l = l.
Proof.
  induction l as [|y l IH]; intros H; simpl; [reflexivity|].
  rewrite (H y) by now left.
  f_equal. apply IH. intros x Hx. apply H. now right.
Qed.

Lemma map_id_on {A} (f : A -> A) l :
  (forall x, In x l -> f x = x) -> List.map f l = l.
Proof.
  induction l as [|y l IH]; intros H; simpl; [reflexivity|].
  rewrite (H y) by now left.
  f_equal. apply IH. intros x Hx. apply H. now right.
Qed.

(** Rows of a table with a unique key are determined by the key. *)
Lemma key_unique {A} (key : A -> Z) l a b :
  NoDup (List.map key l) -> In a l -> In b l -> key a = key b -> a = b.
Proof.
  induction l as [|y l IH]; simpl; intros Hn Ha Hb E; [contradiction|].
  apply NoDup_cons in Hn as [Hy Hn].
  destruct Ha as [->|Ha], Hb as [->|Hb]; auto.
  - exfalso. apply Hy. rewrite E. apply list_elem_of_In.
    now apply List.in_map.
  - exfalso. apply Hy. rewrite <- E. apply list_elem_of_In.
    now apply List.in_map.
Qed.

Lemma next_rowid_above ids : Forall (fun i => i < next_rowid ids) ids.
Proof.
  unfold next_rowid.
  induction ids as [|i ids IH]; constructor; simpl.
  - lia.
  - eapply Forall_impl; [exact IH|]. simpl. intros; lia.
Qed.

Lemma next_rowid_fresh ids : ~ In (next_rowid ids) ids.
Proof.
  intros H. pose proof (next_rowid_above ids) as F.
  rewrite List.Forall_forall in F. apply F in H. lia.
Qed.

Lemma next_rowid_pos ids : 1 <= next_rowid ids.
Proof.
  unfold next_rowid.
  assert (0 <= fold_right Z.max 0 ids); [|lia].
  induction ids; simpl; lia.
Qed.

End TableFacts.

(** ** The invariant is kept by every statement that writes *)

Section Invariant.

Lemma NoDup_map_filter {A} (key : A -> Z) (f : A -> bool) l :
  NoDup (List.map key l) -> NoDup (List.map key (List.filter f l)).
Proof.
  induction l as [|y l IH]; simpl; intros H; [constructor|].
  apply NoDup_cons in H as [Hy H].
  destruct (f y); simpl; [|now apply IH].
  apply NoDup_cons. split; [|now apply IH].
  intros Hin. apply Hy.
  apply list_elem_of_In, List.in_map_iff in Hin as (x & E & Hx).
  apply List.filter_In in Hx as [Hx _].
  apply list_elem_of_In. rewrite <- E. now apply List.in_map.
Qed.

Lemma NoDup_snoc {A} (l : list A) x : NoDup l -> ~ In x l -> NoDup (l ++ [x]).
Proof.
  intros Hl Hx. apply NoDup_app. repeat split.
  - assumption.
  - intros y Hy Hyx. apply list_elem_of_In in Hyx as [<-|[]].
    apply Hx. now apply list_elem_of_In.
  - apply NoDup_singleton.
Qed.

Lemma wf_empty : db_wf empty_db.
Proof. split; simpl; constructor. Qed.

Lemma existsb_false_iff {A} (f : A -> bool) l :
  existsb f l = false <-> forall x, In x l -> f x = false.
Proof.
  induction l as [|y l IH]; simpl.
  - split; [intros _ x []|reflexivity].
  - rewrite orb_false_iff, IH. split.
    + intros [Hy H] x [<-|Hx]; auto.
    + intros H. split; [apply H; now left|].
      intros x Hx. apply H. now right.
Qed.

Lemma insert_user_wf db name hash now db' :
  insert_user db name hash now = Ok db' -> db_wf db -> db_wf db'.
Proof.
  unfold insert_user.
  destruct (existsb _ _) eqn:E; [discriminate|].
  intros [= <-] [W1 W2 W3 W4 W5 W6 W7 W8].
  split; simpl; try assumption.
  - rewrite List.map_app. apply NoDup_snoc; [assumption|].
    apply next_rowid_fresh.
  - apply Forall_app. split; [assumption|].
    repeat constructor. simpl. apply next_rowid_pos.
  - rewrite List.map_app. apply NoDup_snoc; [assumption|].
    simpl. intros Hin. apply List.in_map_iff in Hin as (r & Hr & Hin).
    rewrite existsb_false_iff in E. specialize (E r Hin).
    apply PyFacts.str_eqb_neq in E. contradiction.
  - eapply Forall_impl; [exact W6|]. simpl. intros r Hr.
    rewrite List.map_app. apply List.in_or_app. now left.
Qed.

Lemma insert_todo_wf db uid ttl descr due now db' :
  insert_todo db uid ttl descr due now = Ok db' ->
  ttl <> [] -> db_wf db -> db_wf db'.
Proof.
  unfold insert_todo.
  destruct (existsb _ _) eqn:E; [|discriminate].
  intros [= <-] Ht [W1 W2 W3 W4 W5 W6 W7 W8].
  split; simpl; try assumption.
  - rewrite List.map_app. apply NoDup_snoc; [assumption|].
    apply next_rowid_fresh.
  - apply Forall_app. split; [assumption|].
    repeat constructor. simpl. apply next_rowid_pos.
  - apply Forall_app. split; [assumption|].
    repeat constructor. simpl.
    apply List.existsb_exists in E as (r & Hr & E).
    apply Z.eqb_eq in E. rewrite <- E. now apply List.in_map.
  - apply Forall_app. split; [assumption|]. now repeat constructor.
  - apply Forall_app. split; [assumption|].
    constructor; [|constructor]. simpl. now left.
Qed.

(** An UPDATE that keeps [id] and [user_id] and writes a non-empty title
    and a [done] of 0 or 1 keeps every clause of the invariant. *)
Ltac update_keeps task_id :=
  match goal with
  | |- NoDup (List.map _ (List.map _ _)) =>
      rewrite List.map_map; erewrite List.map_ext; [eassumption|];
      intros r; simpl; now destruct (todos_id r =? task_id)
  | |- Forall _ (List.map _ _) =>
      apply List.Forall_map;
      match goal with
      | H : Forall _ _ |- _ =>
          solve [eapply Forall_impl; [exact H|];
                 intros r Hr; simpl in *; now destruct (todos_id r =? task_id)]
      end
  | _ => assumption
  end.

Lemma update_todo_wf db task_id ttl descr due dn :
  ttl <> [] -> dn = 0 \/ dn = 1 -> db_wf db ->
  db_wf (update_todo db task_id ttl descr due dn).
Proof.
  intros Ht Hd [W1 W2 W3 W4 W5 W6 W7 W8].
  split; simpl; update_keeps task_id.
Qed.

Lemma update_done_wf db task_id dn :
  dn = 0 \/ dn = 1 -> db_wf db -> db_wf (update_done db task_id dn).
Proof.
  intros Hd [W1 W2 W3 W4 W5 W6 W7 W8].
  split; simpl; update_keeps task_id.
Qed.

Lemma Forall_filter_keep {A} (P : A -> Prop) (f : A -> bool) l :
  Forall P l -> Forall P (List.filter f l).
Proof.
  rewrite !List.Forall_forall. intros H x Hx.
  apply List.filter_In in Hx as [Hx _]. now apply H.
Qed.

Lemma delete_todo_wf db task_id uid :
  db_wf db -> db_wf (delete_todo db task_id uid).
Proof.
  intros [W1 W2 W3 W4 W5 W6 W7 W8].
  split; simpl; try assumption;
    try (now apply Forall_filter_keep).
  now apply NoDup_map_filter.
Qed.

End Invariant.

(** ** Accounts and sessions *)

Lemma find_app {A} (f : A -> bool) l k :
  List.find f (l ++ k) =
  match List.find f l with Some x => Some x | None => List.find f k end.
Proof.
  induction l as [|y l IH]; simpl; [reflexivity|].
  now destruct (f y).
Qed.

Lemma get_with_username u req :
  get_or_empty (form (with_username u req)) "username" = u.
Proof. unfold get_or_empty. simpl. now rewrite lookup_insert_eq. Qed.

Lemma get_with_username_ne u req k :
  k <> "username" ->
  get_or_empty (form (with_username u req)) k = get_or_empty (form req) k.
Proof.
  intros H. unfold get_or_empty. simpl. now rewrite lookup_insert_ne.
Qed.

Section Accounts.

Variable generate_password_hash : list N -> list N -> list N.
Variable check_password_hash : list N -> list N -> bool.


(** [create_user] succeeds exactly on a free username, and then appends
    one row with a fresh id. *)
Lemma create_user_ok db name password salt now db' :
  create_user generate_password_hash db name password salt now = (true, db') ->
  select_user db name = None
  /\ db' = {| users := users db ++
                [{| users_id := next_rowid (List.map users_id (users db));
                    username := name;
                    password_hash := generate_password_hash password salt;
                    users_created_at := now |}];
              todos := todos db |}.
Proof.
  unfold create_user, insert_user, select_user.
  destruct (existsb _ _) eqn:E; [discriminate|].
  intros [= <-]. split; [|reflexivity].
  apply find_none_iff. now apply existsb_false_iff.
Qed.

Lemma create_user_taken db name password salt now :
  (exists r, In r (users db) /\ username r = name) ->
  create_user generate_password_hash db name password salt now = (false, db).
Proof.
  intros (r & Hr & E). unfold create_user, insert_user.
  replace (existsb _ _) with true; [reflexivity|].
  symmetry. apply List.existsb_exists. exists r.
  split; [assumption|]. now apply PyFacts.str_eqb_eq.
Qed.

Lemma create_user_wf db name password salt now :
  db_wf db ->
  db_wf (create_user generate_password_hash db name password salt now).2.
Proof.
  intros W. unfold create_user.
  destruct (insert_user _ _ _ _) as [db'|] eqn:E; simpl; [|assumption].
  eapply insert_user_wf; eassumption.
Qed.

Lemma authenticate_new db name password salt now db' candidate :
  create_user generate_password_hash db name password salt now = (true, db') ->
  authenticate check_password_hash db' name candidate =
  if check_password_hash (generate_password_hash password salt) candidate
  then Some (next_rowid (List.map users_id (users db)))
  else None.
Proof.
  intros H. apply create_user_ok in H as [Hn ->].
  unfold authenticate, select_user in *. simpl.
  rewrite find_app, Hn. simpl.
  now rewrite PyFacts.str_eqb_refl.
Qed.

End Accounts.

(** *** The hash library model *)

Section WerkzeugFacts.

Variable prf : list N -> list N -> list N.
Variable long_key : list N -> list N.

(** A password checks against a stored hash exactly when it derives the
    key that the hashed password derived. *)
Lemma werkzeug_check_generate password salt candidate :
  Werkzeug.check_password_hash prf long_key
    (Werkzeug.generate_password_hash prf long_key password salt) candidate
  = Py.str_eqb (Werkzeug.derive prf long_key password salt)
      (Werkzeug.derive prf long_key candidate salt).
Proof.
  unfold Werkzeug.check_password_hash, Werkzeug.generate_password_hash.
  now rewrite Nat2N.id, drop_app_length, take_app_length.
Qed.

(** A trailing NUL byte disappears in the zero padding of the key. *)
Lemma hmac_key_nul key :
  (length key < Werkzeug.block_size)%nat ->
  Werkzeug.hmac_key long_key (key ++ [0%N]) = Werkzeug.hmac_key long_key key.
Proof.
  unfold Werkzeug.hmac_key, Werkzeug.block_size. intros H.
  rewrite length_app. simpl length.
  destruct (Nat.leb_spec (length key + 1) 64); [|lia].
  destruct (Nat.leb_spec (length key) 64); [|lia].
  rewrite length_app. simpl length.
  replace (64 - length key)%nat with (S (64 - (length key + 1))) by lia.
  simpl. now rewrite <- List.app_assoc.
Qed.

Lemma derive_nul password salt :
  (length (Py.encode_utf8 password) < Werkzeug.block_size)%nat ->
  Werkzeug.derive prf long_key (password ++ [0%N]) salt
  = Werkzeug.derive prf long_key password salt.
Proof.
  intros H. unfold Werkzeug.derive, Py.encode_utf8.
  rewrite List.flat_map_app. simpl. now rewrite hmac_key_nul.
Qed.

(** C2, amended. When [create_user] accepts a username and password, it
    adds exactly one user row, with a fresh id; [authenticate] with the
    same username and password returns that id; with the same username
    and another password it returns that id when the password derives
    the same key as the registered one (as the registered password
    followed by a NUL character does, when shorter than an HMAC block)
    and no identity otherwise. *)
Theorem create_user_authenticate_roundtrip db name password salt now db' :
  create_user (Werkzeug.generate_password_hash prf long_key)
    db name password salt now = (true, db') ->
  exists row,
    users db' = users db ++ [row]
    /\ username row = name
    /\ ~ In (users_id row) (List.map users_id (users db))
    /\ authenticate (Werkzeug.check_password_hash prf long_key)
         db' name password = Some (users_id row)
    /\ (forall other,
          Werkzeug.derive prf long_key other salt
          = Werkzeug.derive prf long_key password salt ->
          authenticate (Werkzeug.check_password_hash prf long_key)
            db' name other = Some (users_id row))
    /\ (forall other,
          Werkzeug.derive prf long_key other salt
          <> Werkzeug.derive prf long_key password salt ->
          authenticate (Werkzeug.check_password_hash prf long_key)
            db' name other = None)
    /\ ((length (Py.encode_utf8 password) < Werkzeug.block_size)%nat ->
        authenticate (Werkzeug.check_password_hash prf long_key)
          db' name (password ++ [0%N]) = Some (users_id row)).
Proof.
  intros H.
  pose proof (fun c => authenticate_new _
                         (Werkzeug.check_password_hash prf long_key)
                         _ _ _ _ _ _ c H) as Ha.
  destruct (create_user_ok _ _ _ _ _ _ _ H) as [_ ->].
  assert (Hsame : forall other,
             Werkzeug.derive prf long_key other salt
             = Werkzeug.derive prf long_key password salt ->
             authenticate (Werkzeug.check_password_hash prf long_key)
               {| users := users db ++
                    [{| users_id := next_rowid (List.map users_id (users db));
                        username := name;
                        password_hash :=
                          Werkzeug.generate_password_hash prf long_key
                            password salt;
                        users_created_at := now |}];
                  todos := todos db |} name other
             = Some (next_rowid (List.map users_id (users db)))).
  { intros other E. rewrite Ha, werkzeug_check_generate, E.
    now rewrite PyFacts.str_eqb_refl. }
  eexists. split; [reflexivity|]. simpl.
  split; [reflexivity|]. split; [apply next_rowid_fresh|].
  split; [now apply Hsame|]. split; [exact Hsame|]. split.
  - intros other Hne. rewrite Ha, werkzeug_check_generate.
    destruct (Py.str_eqb _ _) eqn:E; [|reflexivity].
    apply PyFacts.str_eqb_eq in E. now contradiction Hne.
  - intros Hlen. apply Hsame. now apply derive_nul.
Qed.

End WerkzeugFacts.

(** C2, as the specification states it, fails: alice registers with the
    password "pw123", and [authenticate] accepts "pw123" followed by a
    NUL character, a different password, for her. *)
Lemma roundtrip_rejects_other_fails :
  ~ roundtrip_rejects_other
      (Werkzeug.generate_password_hash Werkzeug.sample_prf
         Werkzeug.sample_long_key)
      (Werkzeug.check_password_hash Werkzeug.sample_prf
         Werkzeug.sample_long_key)
      empty_db (Py.lit "alice") (Py.lit "pw123") (Py.lit "k3Jx")
      (Py.lit "2024-05-01T09:00:00.120000").
Proof.
  intros H.
  destruct (H _ eq_refl) as [_ Hother].
  specialize (Hother (Py.lit "pw123" ++ [0%N]) ltac:(discriminate)).
  vm_compute in Hother. discriminate.
Qed.

Section AccountClaims.

Variable generate_password_hash : list N -> list N -> list N.
Variable check_password_hash : list N -> list N -> bool.

(** C8. Registering a username that already exists fails: [create_user]
    returns [False] and the database is the one it was given, so the
    number of user records and the existing user's record, password hash
    included, are unchanged. *)
Theorem create_user_duplicate_rejected db name password salt now r :
  In r (users db) -> username r = name ->
  create_user generate_password_hash db name password salt now = (false, db)
  /\ length
       (users (create_user generate_password_hash db name password salt now).2)
     = length (users db)
  /\ In r
       (users (create_user generate_password_hash db name password salt now).2).
Proof.
  intros Hr E.
  rewrite (create_user_taken generate_password_hash db name password salt now)
    by (now exists r).
  now repeat split.
Qed.

Lemma login_accepted db s req uid :
  method req = POST ->
  authenticate check_password_hash db
    (Py.strip (get_or_empty (form req) "username"))
    (get_or_empty (form req) "password") = Some uid ->
  uid <> 0 ->
  login check_password_hash db s req
  = (redirect (next_or_dashboard req), db,
     {| data := {[ "user_id" := VInt uid;
                   "username" :=
                     VStr (Py.strip (get_or_empty (form req) "username")) ]};
        flashes := [("success", "Logged in successfully.")] |}).
Proof.
  intros Hm Ha Hu. unfold login. rewrite Hm, Ha.
  unfold Py.int_truthy. apply Z.eqb_neq in Hu. now rewrite Hu.
Qed.

(** C9. Session life cycle: a successful login leaves a session that holds
    the new user's id and name and nothing of what the session held
    before, neither a key nor a queued message (its only flashed message
    is the one the login itself queues); this holds also when the
    redirect to [next] fails.  Logout leaves the empty session, whatever
    it held before and whatever the database, with the logout message. *)
Theorem session_lifecycle db s req uid :
  (method req = POST ->
   authenticate check_password_hash db
     (Py.strip (get_or_empty (form req) "username"))
     (get_or_empty (form req) "password") = Some uid ->
   uid <> 0 ->
   login check_password_hash db s req
   = (redirect (next_or_dashboard req), db,
      {| data := {[ "user_id" := VInt uid;
                    "username" :=
                      VStr (Py.strip (get_or_empty (form req) "username")) ]};
         flashes := [("success", "Logged in successfully.")] |}))
  /\ (forall db0 s0 req0,
        logout db0 s0 req0
        = (Redirect url_login, db0,
           {| data := ∅; flashes := [("info", "Logged out.")] |})).
Proof.
  split; [apply login_accepted|reflexivity].
Qed.

Lemma register_created salt now db s req db' s' :
  register generate_password_hash salt now db s req
  = (Redirect url_login, db', s') ->
  create_user generate_password_hash db
    (Py.strip (get_or_empty (form req) "username"))
    (get_or_empty (form req) "password") salt now = (true, db').
Proof.
  unfold register. destruct (method req); [discriminate|].
  destruct (negb _ || negb _); [discriminate|].
  destruct (negb (Py.str_eqb _ _)); [discriminate|].
  destruct (create_user _ _ _ _ _ _) as [[|] d]; simpl.
  - now intros [= <- _].
  - discriminate.
Qed.

(** C10. Username whitespace normalisation: registration and login strip
    the submitted username, so a submission and its stripped form are
    handled identically; the password is taken as submitted.  A successful
    registration stores the stripped username with the hash of the
    untrimmed password; a later login under any username with the same
    stripped form hands the untrimmed password to the check against that
    hash, logs in the registered user when the check accepts it and
    answers "Invalid username or password." when it does not. *)
Theorem username_stripped_password_verbatim salt now db s req u :
  register generate_password_hash salt now db s (with_username u req)
  = register generate_password_hash salt now db s
      (with_username (Py.strip u) req)
  /\ login check_password_hash db s (with_username u req)
     = login check_password_hash db s (with_username (Py.strip u) req)
  /\ forall db' s',
       register generate_password_hash salt now db s (with_username u req)
       = (Redirect url_login, db', s') ->
       exists row,
         users db' = users db ++ [row]
         /\ username row = Py.strip u
         /\ password_hash row
            = generate_password_hash (get_or_empty (form req) "password") salt
         /\ forall s0 req0 u0,
              method req0 = POST ->
              Py.strip u0 = Py.strip u ->
              login check_password_hash db' s0 (with_username u0 req0)
              = if check_password_hash (password_hash row)
                     (get_or_empty (form req0) "password")
                then
                  (redirect (next_or_dashboard req0), db',
                   {| data := {[ "user_id" := VInt (users_id row);
                                 "username" := VStr (Py.strip u) ]};
                      flashes := [("success", "Logged in successfully.")] |})
                else
                  (Redirect url_login, db',
                   flash "Invalid username or password." "danger" s0).
Proof.
  split; [|split].
  - unfold register.
    rewrite !get_with_username, !get_with_username_ne by discriminate.
    now rewrite PyFacts.strip_idem.
  - unfold login.
    rewrite !get_with_username, !get_with_username_ne by discriminate.
    now rewrite PyFacts.strip_idem.
  - intros db' s' H. apply register_created in H.
    rewrite get_with_username, get_with_username_ne in H by discriminate.
    pose proof (fun c => authenticate_new _ check_password_hash _ _ _ _ _ _ c H)
      as Ha.
    destruct (create_user_ok _ _ _ _ _ _ _ H) as [_ E].
    rewrite E. simpl. eexists. split; [reflexivity|]. simpl.
    split; [reflexivity|]. split; [reflexivity|].
    intros s0 req0 u0 Hm Hu. rewrite <- E.
    destruct (check_password_hash _ (get_or_empty (form req0) "password"))
      eqn:C.
    + pose proof (next_rowid_pos (List.map users_id (users db))) as Hp.
      rewrite (login_accepted db' s0 (with_username u0 req0)
                 (next_rowid (List.map users_id (users db)))).
      * now rewrite get_with_username, Hu.
      * exact Hm.
      * rewrite get_with_username, get_with_username_ne, Hu, Ha, C
          by discriminate.
        reflexivity.
      * lia.
    + unfold login.
      rewrite get_with_username, get_with_username_ne by discriminate.
      change (method (with_username u0 req0)) with (method req0).
      now rewrite Hm, Hu, Ha, C.
Qed.

End AccountClaims.

(** ** Tasks *)

Section TaskFacts.

Lemma login_required_in body db s req uid :
  session_user_id s = Some uid ->
  login_required (with_user body) db s req = body uid db s req.
Proof.
  unfold login_required, with_user, session_user_id.
  destruct (data s !! "user_id") as [[n|x]|] eqn:E; try discriminate.
  now intros [= ->].
Qed.

Lemma login_required_db body db s req :
  (forall uid, db_of (body uid db s req) = db) ->
  db_of (login_required (with_user body) db s req) = db.
Proof.
  intros H. unfold login_required, with_user.
  destruct (data s !! "user_id"); [|reflexivity].
  destruct (session_user_id s); [apply H|reflexivity].
Qed.

Lemma bindable_stored db t :
  In t (todos db) -> bindable db (todos_id t) = true.
Proof.
  intros Ht. unfold bindable. apply orb_true_iff. right.
  apply List.existsb_exists. exists t. split; [assumption|].
  apply Z.eqb_refl.
Qed.


Lemma db_eta db : {| users := users db; todos := todos db |} = db.
Proof. now destruct db. Qed.

(** A key that belongs to another user's row selects nothing. *)
Lemma select_todo_foreign db t uid :
  db_wf db -> In t (todos db) -> user_id t <> uid ->
  forall x, In x (todos db) ->
            (todos_id x =? todos_id t) && (user_id x =? uid) = false.
Proof.
  intros W Ht Hu x Hx.
  destruct (Z.eqb_spec (todos_id x) (todos_id t)) as [E|_]; [|reflexivity].
  apply (key_unique todos_id _ _ _ (wf_todos_id _ W) Hx Ht) in E as ->.
  simpl. now apply Z.eqb_neq.
Qed.

Lemma select_todo_In db task_id uid t :
  select_todo db task_id uid = Some t ->
  In t (todos db) /\ todos_id t = task_id /\ user_id t = uid.
Proof.
  intros H. apply List.find_some in H as [Hin H].
  apply andb_prop in H as [H1 H2].
  apply Z.eqb_eq in H1, H2. auto.
Qed.

Lemma bindable_selected db task_id uid t :
  select_todo db task_id uid = Some t -> bindable db task_id = true.
Proof.
  intros H. apply select_todo_In in H as (Hin & <- & _).
  now apply bindable_stored.
Qed.

Lemma select_todo_own db t :
  db_wf db -> In t (todos db) ->
  select_todo db (todos_id t) (user_id t) = Some t.
Proof.
  intros W Ht. unfold select_todo.
  destruct (List.find _ _) as [x|] eqn:E.
  - apply select_todo_In in E as (Hx & E & _).
    f_equal. exact (key_unique todos_id _ _ _ (wf_todos_id _ W) Hx Ht E).
  - rewrite find_none_iff in E. specialize (E t Ht).
    now rewrite !Z.eqb_refl in E.
Qed.

Lemma listing_rows db s req uid :
  session_user_id s = Some uid ->
  exists rows,
    dashboard db s req
    = (Render (dashboard_html rows (Py.strip (get_or_empty (args req) "q"))),
       db, s)
    /\ rows = order_by order_leb
                (List.filter
                   (fun r =>
                      (user_id r =? uid)
                      && (negb (Py.truthy
                                  (Py.strip (get_or_empty (args req) "q")))
                          || Sql.like
                               ([Sql.percent]
                                  ++ Py.strip (get_or_empty (args req) "q")
                                  ++ [Sql.percent]) (title r)
                          || Sql.like
                               ([Sql.percent]
                                  ++ Py.strip (get_or_empty (args req) "q")
                                  ++ [Sql.percent]) (description r)))
                   (todos db)).
Proof.
  intros Hs. unfold dashboard. rewrite (login_required_in _ _ _ _ _ Hs).
  eexists. split; [reflexivity|].
  destruct (Py.truthy _); simpl negb.
  - reflexivity.
  - unfold select_todos. f_equal. apply List.filter_ext.
    intros r. simpl. now rewrite andb_true_r.
Qed.

End TaskFacts.

(** C1. Ownership isolation: a task of user A is in no listing of another
    user B, with or without a search query; under B's session, edit and
    toggle of A's task id answer 404 and delete does nothing, and all
    three leave the database, hence A's task, as it was. *)
Theorem ownership_isolation db s req (A B : Z) (t : todo_row) :
  db_wf db -> A <> B ->
  In t (todos db) -> user_id t = A ->
  session_user_id s = Some B ->
  (exists rows q,
     dashboard db s req = (Render (dashboard_html rows q), db, s)
     /\ ~ In t rows)
  /\ edit_task (todos_id t) db s req = (Abort404, db, s)
  /\ toggle_task (todos_id t) db s req = (Abort404, db, s)
  /\ delete_task (todos_id t) db s req
     = (Redirect url_dashboard, db, flash "Task deleted." "info" s).
Proof.
  intros W Hab Ht Ha Hs.
  assert (Hf := select_todo_foreign db t B W Ht ltac:(congruence)).
  assert (Hn : select_todo db (todos_id t) B = None)
    by now apply find_none_iff.
  repeat split.
  - destruct (listing_rows db s req B Hs) as (rows & E & ->).
    eexists. eexists. split; [exact E|].
    rewrite order_by_In, List.filter_In.
    intros [_ H]. apply andb_prop in H as [H _].
    apply Z.eqb_eq in H. congruence.
  - unfold edit_task. rewrite (login_required_in _ _ _ _ _ Hs).
    now rewrite (bindable_stored db t Ht), Hn.
  - unfold toggle_task. rewrite (login_required_in _ _ _ _ _ Hs).
    now rewrite (bindable_stored db t Ht), Hn.
  - unfold delete_task. rewrite (login_required_in _ _ _ _ _ Hs).
    rewrite (bindable_stored db t Ht). simpl negb. cbv iota.
    unfold delete_todo. rewrite filter_all.
    + now rewrite db_eta.
    + intros x Hx. now rewrite (Hf x Hx).
Qed.

(** C5. Title validation: with an empty or whitespace-only title, creating
    a task answers "Title is required." and persists nothing, and editing
    an existing task answers the same and leaves the database, hence
    every field of the task, unchanged; whatever the session, neither
    request changes the database. *)
Theorem blank_title_rejected now db s req uid task_id :
  forallb Py.isspace (get_or_empty (form req) "title") = true ->
  method req = POST ->
  session_user_id s = Some uid ->
  add_task now db s req
  = (Redirect url_add_task, db, flash "Title is required." "danger" s)
  /\ (forall task,
        select_todo db task_id uid = Some task ->
        edit_task task_id db s req
        = (Redirect (url_edit_task task_id), db,
           flash "Title is required." "danger" s))
  /\ (forall s0,
        db_of (add_task now db s0 req) = db
        /\ db_of (edit_task task_id db s0 req) = db).
Proof.
  intros Hb Hm Hs.
  assert (Ht : Py.truthy (Py.strip (get_or_empty (form req) "title")) = false)
    by now rewrite PyFacts.truthy_strip, Hb.
  repeat split.
  - unfold add_task. rewrite (login_required_in _ _ _ _ _ Hs).
    now rewrite Hm, Ht.
  - intros task Hsel. unfold edit_task.
    rewrite (login_required_in _ _ _ _ _ Hs).
    now rewrite (bindable_selected _ _ _ _ Hsel), Hsel, Hm, Ht.
  - unfold add_task. apply login_required_db. intros u.
    now rewrite Hm, Ht.
  - unfold edit_task. apply login_required_db. intros u.
    destruct (negb (bindable db task_id)); [reflexivity|].
    destruct (select_todo db task_id u); [|reflexivity].
    now rewrite Hm, Ht.
Qed.



(** C7. Toggle involution: for a task the caller owns, one toggle flips
    the task's [done] flag (0 becomes 1, 1 becomes 0; the new value
    differs from the old) and keeps every other field of the task; a
    second toggle brings the whole database, hence the flag, back to
    where it was. *)
Theorem toggle_involution db s req uid t :
  db_wf db -> In t (todos db) -> user_id t = uid ->
  session_user_id s = Some uid ->
  let r1 := toggle_task (todos_id t) db s req in
  let r2 := toggle_task (todos_id t) (db_of r1) (sess_of r1) req in
  resp_of r1 = Redirect url_dashboard
  /\ (exists t1,
        select_todo (db_of r1) (todos_id t) uid = Some t1
        /\ In t1 (todos (db_of r1))
        /\ done t1 = (if done t =? 0 then 1 else 0)
        /\ done t1 <> done t
        /\ todos_id t1 = todos_id t
        /\ user_id t1 = user_id t
        /\ title t1 = title t
        /\ description t1 = description t
        /\ due_date t1 = due_date t
        /\ created_at t1 = created_at t)
  /\ resp_of r2 = Redirect url_dashboard
  /\ db_of r2 = db.
Proof.
  intros W Ht Hu Hs r1 r2.
  assert (Hd : done t = 0 \/ done t = 1).
  { pose proof (wf_done _ W) as F. rewrite List.Forall_forall in F. auto. }
  assert (Hflip : (if Py.int_truthy (done t) then 0 else 1) = 1 - done t).
  { unfold Py.int_truthy. destruct Hd as [-> | ->]; reflexivity. }
  assert (E1 : r1 = (Redirect url_dashboard,
                     update_done db (todos_id t) (1 - done t), s)).
  { unfold r1, toggle_task. rewrite (login_required_in _ _ _ _ _ Hs).
    rewrite (bindable_stored db t Ht).
    rewrite <- Hu, (select_todo_own db t W Ht). simpl negb. cbv iota.
    now rewrite Hflip. }
  set (db1 := update_done db (todos_id t) (1 - done t)) in *.
  set (t1 := set_done (1 - done t) t).
  assert (W1 : db_wf db1) by (apply update_done_wf; [lia|assumption]).
  assert (Ht1 : In t1 (todos db1)).
  { unfold db1, update_done. simpl. apply List.in_map_iff.
    exists t. split; [|assumption]. now rewrite Z.eqb_refl. }
  assert (Hsel : select_todo db1 (todos_id t) uid = Some t1).
  { rewrite <- Hu. exact (select_todo_own db1 t1 W1 Ht1). }
  assert (E2 : r2 = (Redirect url_dashboard,
                     update_done db1 (todos_id t) (done t), s)).
  { unfold r2, toggle_task. rewrite E1. unfold db_of, sess_of. simpl.
    rewrite (login_required_in _ _ _ _ _ Hs).
    fold db1. rewrite (bindable_selected _ _ _ _ Hsel), Hsel.
    simpl negb. cbv iota. simpl done.
    replace (if Py.int_truthy (1 - done t) then 0 else 1) with (done t);
      [reflexivity|].
    unfold Py.int_truthy. destruct Hd as [-> | ->]; reflexivity. }
  rewrite E2, E1. unfold resp_of, db_of. simpl.
  split; [reflexivity|]. split; [|split; [reflexivity|]].
  - exists t1. split; [exact Hsel|]. split; [exact Ht1|].
    unfold t1. simpl.
    split; [destruct Hd as [-> | ->]; reflexivity|].
    split; [lia|]. now repeat split.
  - transitivity {| users := users db; todos := todos db |}; [|apply db_eta].
    unfold db1, update_done. simpl. f_equal.
    rewrite List.map_map. apply map_id_on. intros x Hx.
    destruct (Z.eqb_spec (todos_id x) (todos_id t)) as [E|E].
    + apply (key_unique todos_id _ _ _ (wf_todos_id _ W) Hx Ht) in E as ->.
      simpl. rewrite Z.eqb_refl. now destruct t.
    + apply Z.eqb_neq in E. now rewrite E.
Qed.

Lemma text_ltb_chain a b c :
  Sql.text_ltb a b = true -> Sql.text_ltb b c = true ->
  Sql.text_leb c a = false.
Proof.
  unfold Sql.text_ltb. rewrite !negb_true_iff. intros Hab Hbc.
  destruct (Sql.text_leb c a) eqn:E; [|reflexivity].
  destruct (SqlFacts.text_leb_total a b) as [H|H]; [|congruence].
  rewrite (SqlFacts.text_leb_trans c a b E H) in Hbc. discriminate.
Qed.

(** C4. Listing order: every listing is the caller's incomplete tasks
    followed by the complete ones, each group by creation time descending
    (and without a query it is a rearrangement of all the caller's tasks);
    in particular, tasks T1 (not done, created first), T2 (done, created
    second) and T3 (not done, created third) are listed as T3, T1, T2. *)
Theorem listing_order db s req uid :
  db_wf db ->
  session_user_id s = Some uid ->
  (exists rows q inc comp,
     dashboard db s req = (Render (dashboard_html rows q), db, s)
     /\ rows = inc ++ comp
     /\ Forall (fun r => done r = 0) inc
     /\ Forall (fun r => done r = 1) comp
     /\ StronglySorted newer_first inc
     /\ StronglySorted newer_first comp
     /\ (args req !! "q" = None ->
         Permutation rows
           (List.filter (fun r => user_id r =? uid) (todos db))))
  /\ (forall T1 T2 T3,
        args req !! "q" = None ->
        List.filter (fun r => user_id r =? uid) (todos db) = [T1; T2; T3] ->
        done T1 = 0 -> done T2 = 1 -> done T3 = 0 ->
        Sql.text_ltb (created_at T1) (created_at T2) = true ->
        Sql.text_ltb (created_at T2) (created_at T3) = true ->
        dashboard db s req
        = (Render (dashboard_html [T3; T1; T2] []), db, s)).
Proof.
  intros W Hs.
  destruct (listing_rows db s req uid Hs) as (rows & E & Hrows).
  assert (Hq : args req !! "q" = None ->
               Py.strip (get_or_empty (args req) "q") = []
               /\ rows = order_by order_leb
                           (List.filter (fun r => user_id r =? uid) (todos db))).
  { intros Hn. unfold get_or_empty in *. rewrite Hn in *. simpl in *.
    split; [reflexivity|]. rewrite Hrows. f_equal.
    apply List.filter_ext. intros r. now rewrite andb_true_r. }
  split.
  - assert (Hd : Forall (fun r => done r = 0 \/ done r = 1) rows).
    { pose proof (wf_done _ W) as F. rewrite List.Forall_forall in *.
      intros r Hr. apply F. rewrite Hrows, order_by_In in Hr.
      now apply List.filter_In in Hr. }
    assert (Hsorted : StronglySorted order_rel rows)
      by (rewrite Hrows; apply order_by_sorted).
    destruct (sorted_split rows Hsorted Hd)
      as (inc & comp & Hic & Hi & Hc & Si & Sc).
    exists rows, (Py.strip (get_or_empty (args req) "q")), inc, comp.
    repeat split; try assumption.
    intros Hn. destruct (Hq Hn) as [_ ->]. apply order_by_perm.
  - intros T1 T2 T3 Hn Hf H1 H2 H3 H12 H23.
    destruct (Hq Hn) as [Hq1 Hq2].
    rewrite E, Hq1. do 3 f_equal.
    assert (L23 : order_leb T2 T3 = false)
      by (unfold order_leb; now rewrite H2, H3).
    assert (L13 : order_leb T1 T3 = false).
    { unfold order_leb. rewrite H1, H3. simpl.
      exact (text_ltb_chain _ _ _ H12 H23). }
    assert (L12 : order_leb T1 T2 = true)
      by (unfold order_leb; now rewrite H1, H2).
    rewrite Hq2, Hf. unfold order_by. simpl.
    rewrite L23. simpl. now rewrite L13, L12.
Qed.

(** ** Search *)





(** ** Every handler keeps the invariant *)

Section HandlersKeepInvariant.

Variable generate_password_hash : list N -> list N -> list N.
Variable check_password_hash : list N -> list N -> bool.

Lemma login_required_wf body db s req :
  (forall uid, db_wf (db_of (body uid db s req))) ->
  db_wf db ->
  db_wf (db_of (login_required (with_user body) db s req)).
Proof.
  intros H W. unfold login_required, with_user.
  destruct (data s !! "user_id"); [|exact W].
  destruct (session_user_id s); [apply H|exact W].
Qed.

Lemma register_wf salt now db s req :
  db_wf db -> db_wf (db_of (register generate_password_hash salt now db s req)).
Proof.
  intros W. unfold register.
  destruct (method req); [exact W|].
  destruct (negb _ || negb _); [exact W|].
  destruct (negb (Py.str_eqb _ _)); [exact W|].
  pose proof (create_user_wf generate_password_hash db
                (Py.strip (get_or_empty (form req) "username"))
                (get_or_empty (form req) "password") salt now W) as W'.
  destruct (create_user _ _ _ _ _ _) as [[|] d]; exact W'.
Qed.

Lemma login_wf db s req :
  db_wf db -> db_wf (db_of (login check_password_hash db s req)).
Proof.
  intros W. unfold login.
  destruct (method req); [exact W|].
  destruct (authenticate _ _ _ _) as [uid|]; [|exact W].
  destruct (Py.int_truthy uid); exact W.
Qed.

Lemma add_task_wf now db s req :
  db_wf db -> db_wf (db_of (add_task now db s req)).
Proof.
  intros W. unfold add_task. apply login_required_wf; [|exact W].
  intros uid. destruct (method req); [exact W|].
  destruct (Py.truthy (Py.strip (get_or_empty (form req) "title"))) eqn:T;
    [|exact W].
  simpl negb. cbv iota.
  destruct (insert_todo _ _ _ _ _ _) as [db'|] eqn:E; [|exact W].
  eapply insert_todo_wf; [exact E| |exact W].
  intros Hnil. rewrite Hnil in T. discriminate.
Qed.

Lemma edit_task_wf task_id db s req :
  db_wf db -> db_wf (db_of (edit_task task_id db s req)).
Proof.
  intros W. unfold edit_task. apply login_required_wf; [|exact W].
  intros uid. destruct (negb (bindable db task_id)); [exact W|].
  destruct (select_todo db task_id uid); [|exact W].
  destruct (method req); [exact W|].
  destruct (Py.truthy (Py.strip (get_or_empty (form req) "title"))) eqn:T;
    [|exact W].
  simpl negb. cbv iota. apply update_todo_wf; [| |exact W].
  - intros Hnil. rewrite Hnil in T. discriminate.
  - destruct (bool_decide _); auto.
Qed.

Lemma delete_task_wf task_id db s req :
  db_wf db -> db_wf (db_of (delete_task task_id db s req)).
Proof.
  intros W. unfold delete_task. apply login_required_wf; [|exact W].
  intros uid. destruct (negb (bindable db task_id)); [exact W|].
  now apply delete_todo_wf.
Qed.

Lemma toggle_task_wf task_id db s req :
  db_wf db -> db_wf (db_of (toggle_task task_id db s req)).
Proof.
  intros W. unfold toggle_task. apply login_required_wf; [|exact W].
  intros uid. destruct (negb (bindable db task_id)); [exact W|].
  destruct (select_todo db task_id uid) as [row|]; [|exact W].
  apply update_done_wf; [|exact W].
  destruct (Py.int_truthy (done row)); auto.
Qed.

End HandlersKeepInvariant.

(** ** Every reachable database satisfies the invariant *)

(** Every database the application reaches from the empty one, by any
    sequence of requests on any routes with any sessions, satisfies the
    invariant: ids are unique and positive, no two users share a
    username, every task belongs to an existing user and has a non-empty
    title, and [done] is 0 or 1. *)
Theorem reachable_wf gen check db : reachable gen check db -> db_wf db.
Proof.
  induction 1 as [|db e s req _ IH]; [exact wf_empty|].
  change (db_wf (db_of (route gen check e db s req))).
  destruct e; simpl; unfold only;
    try (destruct (method_eqb (method req) _); [|exact IH]).
  - now apply register_wf.
  - now apply login_wf.
  - exact IH.
  - unfold dashboard. apply login_required_wf; [|exact IH]. intros; exact IH.
  - now apply add_task_wf.
  - now apply edit_task_wf.
  - now apply delete_task_wf.
  - now apply toggle_task_wf.
Qed.

(** A task is created for the user of the session, not done, with the
    stripped fields; an empty due date is stored as NULL. *)
Lemma add_task_creates now db s req uid :
  session_user_id s = Some uid ->
  method req = POST ->
  Py.strip (get_or_empty (form req) "title") <> [] ->
  In uid (List.map users_id (users db)) ->
  add_task now db s req
  = (Redirect url_dashboard,
     {| users := users db;
        todos := todos db ++
                 [{| todos_id := next_rowid (List.map todos_id (todos db));
                     user_id := uid;
                     title := Py.strip (get_or_empty (form req) "title");
                     description :=
                       Py.strip (get_or_empty (form req) "description");
                     due_date :=
                       strip_or_none (get_or_empty (form req) "due_date");
                     done := 0;
                     created_at := now |}] |},
     flash "Task added." "success" s).
Proof.
  intros Hs Hm Ht Hu. unfold add_task.
  rewrite (login_required_in _ _ _ _ _ Hs), Hm.
  destruct (Py.strip (get_or_empty (form req) "title")) as [|c r] eqn:E;
    [contradiction|].
  simpl negb. cbv iota. unfold insert_todo.
  replace (existsb _ (users db)) with true; [reflexivity|].
  symmetry. apply List.existsb_exists.
  apply List.in_map_iff in Hu as (r0 & E0 & Hr0).
  exists r0. split; [assumption|]. now apply Z.eqb_eq.
Qed.

(** ** The run *)

Lemma db_users_wf : db_wf db_users.
Proof. apply register_wf, register_wf, wf_empty. Qed.

Lemma db_milk_wf : db_wf db_milk.
Proof. apply add_task_wf, db_users_wf. Qed.

Lemma db_three_wf : db_wf db_three.
Proof. apply add_task_wf, toggle_task_wf, add_task_wf, db_milk_wf. Qed.

(** ** The statements at the run above *)

Lemma ownership_isolation_witness :
  db_wf db_milk /\ 1 <> 2 /\ In milk_row (todos db_milk)
  /\ user_id milk_row = 1 /\ session_user_id bob = Some 2
  /\ (exists rows q,
        dashboard db_milk bob (search_for "milk")
        = (Render (dashboard_html rows q), db_milk, bob)
        /\ ~ In milk_row rows)
  /\ edit_task 1 db_milk bob (search_for "milk") = (Abort404, db_milk, bob)
  /\ toggle_task 1 db_milk bob (search_for "milk") = (Abort404, db_milk, bob)
  /\ delete_task 1 db_milk bob (search_for "milk")
     = (Redirect url_dashboard, db_milk, flash "Task deleted." "info" bob).
Proof.
  split; [exact db_milk_wf|]. split; [lia|].
  split; [vm_compute; left; reflexivity|].
  split; [reflexivity|]. split; [reflexivity|].
  apply (ownership_isolation db_milk bob (search_for "milk") 1 2 milk_row).
  - exact db_milk_wf.
  - lia.
  - vm_compute. left. reflexivity.
  - reflexivity.
  - reflexivity.
Defined.

Lemma create_user_authenticate_roundtrip_witness :
  create_user
    (Werkzeug.generate_password_hash Werkzeug.sample_prf
       Werkzeug.sample_long_key)
    empty_db (Py.lit "alice") (Py.lit "pw123") (Py.lit "k3Jx")
    (Py.lit "2024-05-01T09:00:00.120000") = (true, db_kdf)
  /\ exists row,
       users db_kdf = users empty_db ++ [row]
       /\ authenticate
            (Werkzeug.check_password_hash Werkzeug.sample_prf
               Werkzeug.sample_long_key)
            db_kdf (Py.lit "alice") (Py.lit "pw123") = Some (users_id row)
       /\ authenticate
            (Werkzeug.check_password_hash Werkzeug.sample_prf
               Werkzeug.sample_long_key)
            db_kdf (Py.lit "alice") (Py.lit "pw123" ++ [0%N])
          = Some (users_id row)
       /\ authenticate
            (Werkzeug.check_password_hash Werkzeug.sample_prf
               Werkzeug.sample_long_key)
            db_kdf (Py.lit "alice") (Py.lit "pw124") = None.
Proof.
  split; [reflexivity|].
  destruct (create_user_authenticate_roundtrip Werkzeug.sample_prf
              Werkzeug.sample_long_key empty_db (Py.lit "alice")
              (Py.lit "pw123") (Py.lit "k3Jx")
              (Py.lit "2024-05-01T09:00:00.120000") db_kdf eq_refl)
    as (row & Hu & _ & _ & Hsame & _ & Hne & Hnul).
  exists row. split; [exact Hu|]. split; [exact Hsame|]. split.
  - apply Hnul. vm_compute. lia.
  - apply Hne. intros E. vm_compute in E. discriminate.
Defined.


Lemma listing_order_witness :
  db_wf db_three /\ session_user_id alice = Some 1
  /\ dashboard db_three alice (mk_request GET [] [])
     = (Render (dashboard_html [plants_row; milk_row; bank_row] []),
        db_three, alice).
Proof.
  split; [exact db_three_wf|]. split; [reflexivity|].
  apply (proj2 (listing_order db_three alice (mk_request GET [] []) 1
                  db_three_wf eq_refl) milk_row bank_row plants_row);
    reflexivity.
Defined.

Lemma blank_title_rejected_witness :
  forallb Py.isspace (get_or_empty (form (new_task "   ")) "title") = true
  /\ method (new_task "   ") = POST
  /\ session_user_id alice = Some 1
  /\ add_task (Py.lit "2024-05-01T13:00:00") db_milk alice (new_task "   ")
     = (Redirect url_add_task, db_milk,
        flash "Title is required." "danger" alice)
  /\ edit_task 1 db_milk alice (new_task "   ")
     = (Redirect (url_edit_task 1), db_milk,
        flash "Title is required." "danger" alice).
Proof.
  split; [reflexivity|]. split; [reflexivity|]. split; [reflexivity|].
  destruct (blank_title_rejected (Py.lit "2024-05-01T13:00:00") db_milk alice
              (new_task "   ") 1 1 eq_refl eq_refl eq_refl) as (Ha & He & _).
  split; [exact Ha|].
  apply (He milk_row). reflexivity.
Defined.


Lemma toggle_involution_witness :
  db_wf db_milk /\ In milk_row (todos db_milk) /\ user_id milk_row = 1
  /\ session_user_id alice = Some 1
  /\ done milk_row = 0
  /\ (exists t1,
        select_todo
          (db_of (toggle_task 1 db_milk alice (mk_request POST [] []))) 1 1
        = Some t1
        /\ done t1 = 1
        /\ title t1 = Py.lit "Buy Milk"
        /\ created_at t1 = Py.lit "2024-05-01T10:00:00.000001")
  /\ db_of (toggle_task 1
              (db_of (toggle_task 1 db_milk alice (mk_request POST [] [])))
              (sess_of (toggle_task 1 db_milk alice (mk_request POST [] [])))
              (mk_request POST [] []))
     = db_milk.
Proof.
  split; [exact db_milk_wf|].
  split; [vm_compute; left; reflexivity|].
  split; [reflexivity|]. split; [reflexivity|]. split; [reflexivity|].
  destruct (toggle_involution db_milk alice (mk_request POST [] []) 1 milk_row
              db_milk_wf (or_introl eq_refl) eq_refl eq_refl)
    as (_ & (t1 & Hsel & _ & Hd & _ & _ & _ & Ht & _ & _ & Hc) & _ & Hback).
  split; [|exact Hback].
  exists t1. split; [exact Hsel|]. split; [exact Hd|].
  split; [exact Ht|exact Hc].
Defined.

Lemma create_user_duplicate_rejected_witness :
  In alice_row (users db_users) /\ username alice_row = Py.lit "alice"
  /\ create_user plain_generate db_users (Py.lit "alice") (Py.lit "other")
       (Py.lit "Zs1p") (Py.lit "2024-05-02T08:00:00")
     = (false, db_users).
Proof.
  split; [left; reflexivity|]. split; [reflexivity|].
  apply (create_user_duplicate_rejected plain_generate db_users
           (Py.lit "alice") (Py.lit "other") (Py.lit "Zs1p")
           (Py.lit "2024-05-02T08:00:00") alice_row).
  - left. reflexivity.
  - reflexivity.
Defined.

Lemma session_lifecycle_witness :
  method (credentials_next " alice" "pw123" [47; 10; 120]%N) = POST
  /\ authenticate plain_check db_users
       (Py.strip
          (get_or_empty
             (form (credentials_next " alice" "pw123" [47; 10; 120]%N))
             "username"))
       (get_or_empty
          (form (credentials_next " alice" "pw123" [47; 10; 120]%N))
          "password")
     = Some 1
  /\ 1 <> 0
  /\ login plain_check db_users stale_session (credentials " alice" "pw123")
     = (Redirect url_dashboard, db_users,
        {| data := {[ "user_id" := VInt 1;
                      "username" := VStr (Py.lit "alice") ]};
           flashes := [("success", "Logged in successfully.")] |})
  /\ login plain_check db_users stale_session
       (credentials_next " alice" "pw123" [47; 10; 120]%N)
     = (ServerError, db_users,
        {| data := {[ "user_id" := VInt 1;
                      "username" := VStr (Py.lit "alice") ]};
           flashes := [("success", "Logged in successfully.")] |})
  /\ logout db_users stale_session (mk_request GET [] [])
     = (Redirect url_login, db_users,
        {| data := ∅; flashes := [("info", "Logged out.")] |}).
Proof.
  split; [reflexivity|]. split; [reflexivity|]. split; [lia|].
  split; [|split].
  - apply (proj1 (session_lifecycle plain_check db_users stale_session
                    (credentials " alice" "pw123") 1));
      [reflexivity|reflexivity|lia].
  - apply (proj1 (session_lifecycle plain_check db_users stale_session
                    (credentials_next " alice" "pw123" [47; 10; 120]%N) 1));
      [reflexivity|reflexivity|lia].
  - apply (proj2 (session_lifecycle plain_check db_users stale_session
                    (credentials " alice" "pw123") 1)).
Defined.

Lemma username_stripped_password_verbatim_witness :
  register plain_generate (Py.lit "Zs1p") (Py.lit "2024-05-02T08:00:00")
    db_users no_session
    (with_username (Py.lit " carol ") (registration "" " pw "))
  = register plain_generate (Py.lit "Zs1p") (Py.lit "2024-05-02T08:00:00")
      db_users no_session
      (with_username (Py.strip (Py.lit " carol ")) (registration "" " pw "))
  /\ login plain_check db_users no_session
       (with_username (Py.lit " carol ") (registration "" " pw "))
     = login plain_check db_users no_session
         (with_username (Py.strip (Py.lit " carol ")) (registration "" " pw "))
  /\ login plain_check db_carol stale_session
       (with_username (Py.lit "carol  ") (credentials "" " pw "))
     = (Redirect url_dashboard, db_carol,
        {| data := {[ "user_id" := VInt 3;
                      "username" := VStr (Py.lit "carol") ]};
           flashes := [("success", "Logged in successfully.")] |})
  /\ login plain_check db_carol no_session
       (with_username (Py.lit "carol  ") (credentials "" "pw"))
     = (Redirect url_login, db_carol,
        flash "Invalid username or password." "danger" no_session).
Proof.
  destruct (username_stripped_password_verbatim plain_generate plain_check
              (Py.lit "Zs1p") (Py.lit "2024-05-02T08:00:00")
              db_users no_session (registration "" " pw ") (Py.lit " carol "))
    as (Hr & Hl & Hp).
  split; [exact Hr|]. split; [exact Hl|].
  destruct (Hp db_carol
              (flash "Account created. Please login." "success" no_session)
              eq_refl) as (row & Hu & _ & _ & Hlogin).
  vm_compute in Hu. injection Hu as <-.
  split.
  - rewrite (Hlogin stale_session (credentials "" " pw ") (Py.lit "carol  ")
               eq_refl eq_refl).
    reflexivity.
  - rewrite (Hlogin no_session (credentials "" "pw") (Py.lit "carol  ")
               eq_refl eq_refl).
    reflexivity.
Defined.

(** ** Worked examples *)

Example strip_ex : Py.strip (Py.lit "  Buy milk  ") = Py.lit "Buy milk".
Proof. reflexivity. Qed.

Example like_ex :
  Sql.like (Py.lit "%milk%") (Py.lit "Buy Milk today") = true
  /\ Sql.like (Py.lit "%m_lk%") (Py.lit "Buy malk") = true
  /\ Sql.like (Py.lit "%milk%") (Py.lit "Buy mil") = false.
Proof. repeat split; reflexivity. Qed.

(** The end-to-end scenario: alice's task is not in bob's listing, and bob's
    edit of it answers 404. *)
Example scenario_ex :
  listing db_milk alice (mk_request GET [] []) = Some [milk_row]
  /\ listing db_milk bob (mk_request GET [] []) = Some []
  /\ resp_of (edit_task 1 db_milk bob (new_task "Mine now")) = Abort404.
Proof. repeat split; reflexivity. Qed.

(** * Further properties of the handlers *)

(** ** The guard and what each route may write *)

Lemma login_required_data body db s req :
  (forall uid, data (sess_of (body uid db s req)) = data s) ->
  data (sess_of (login_required (with_user body) db s req)) = data s.
Proof.
  intros H. unfold login_required, with_user.
  destruct (data s !! "user_id"); [|reflexivity].
  destruct (session_user_id s); [apply H|reflexivity].
Qed.

Lemma login_required_users body db s req :
  (forall uid, users (db_of (body uid db s req)) = users db) ->
  users (db_of (login_required (with_user body) db s req)) = users db.
Proof.
  intros H. unfold login_required, with_user.
  destruct (data s !! "user_id"); [|reflexivity].
  destruct (session_user_id s); [apply H|reflexivity].
Qed.

(** Without [user_id] in the session, every view behind [login_required]
    answers with the redirect to the login page that carries the requested
    path, whatever the method, the form and the task id, and neither the
    database nor the session changes. *)
Theorem guard_redirects now task_id db s req :
  data s !! "user_id" = None ->
  dashboard db s req = (Redirect (url_login_next (path req)), db, s)
  /\ add_task now db s req = (Redirect (url_login_next (path req)), db, s)
  /\ edit_task task_id db s req
     = (Redirect (url_login_next (path req)), db, s)
  /\ delete_task task_id db s req
     = (Redirect (url_login_next (path req)), db, s)
  /\ toggle_task task_id db s req
     = (Redirect (url_login_next (path req)), db, s).
Proof.
  intros H.
  unfold dashboard, add_task, edit_task, delete_task, toggle_task,
    login_required.
  rewrite H. repeat split.
Qed.

(** A GET request changes nothing in the database, on any route: the forms
    are only rendered, and delete and toggle accept POST alone. *)
Theorem get_is_read_only gen check e db s req :
  method req = GET ->
  db_of (route gen check e db s req) = db.
Proof.
  intros Hm. destruct e; simpl; unfold only; rewrite ?Hm; simpl.
  - unfold register. now rewrite Hm.
  - unfold login. now rewrite Hm.
  - reflexivity.
  - unfold dashboard. now apply login_required_db.
  - unfold add_task. apply login_required_db. intros uid. now rewrite Hm.
  - unfold edit_task. apply login_required_db. intros uid.
    destruct (negb (bindable db task_id)); [reflexivity|].
    destruct (select_todo db task_id uid); [|reflexivity]. now rewrite Hm.
  - reflexivity.
  - reflexivity.
Qed.

(** Only login and logout write the session dictionary: every other route
    leaves [user_id] and [username] (and any other key) as they were,
    adding at most flashed messages. *)
Theorem identity_written_by_login_logout_only gen check e db s req :
  e <> ep_login -> e <> ep_logout ->
  data (sess_of (route gen check e db s req)) = data s.
Proof.
  intros Hl Ho. destruct e; try contradiction; simpl; unfold only.
  - unfold register. destruct (method req); [reflexivity|].
    destruct (negb _ || negb _); [reflexivity|].
    destruct (negb (Py.str_eqb _ _)); [reflexivity|].
    now destruct (create_user _ _ _ _ _ _) as [[|] d].
  - destruct (method_eqb _ _); [|reflexivity].
    unfold dashboard. now apply login_required_data.
  - unfold add_task. apply login_required_data. intros uid.
    destruct (method req); [reflexivity|].
    destruct (negb _); [reflexivity|].
    now destruct (insert_todo _ _ _ _ _ _).
  - unfold edit_task. apply login_required_data. intros uid.
    destruct (negb (bindable db task_id)); [reflexivity|].
    destruct (select_todo db task_id uid); [|reflexivity].
    destruct (method req); [reflexivity|].
    now destruct (negb _).
  - destruct (method_eqb _ _); [|reflexivity].
    unfold delete_task. apply login_required_data. intros uid.
    now destruct (negb (bindable db task_id)).
  - destruct (method_eqb _ _); [|reflexivity].
    unfold toggle_task. apply login_required_data. intros uid.
    destruct (negb (bindable db task_id)); [reflexivity|].
    now destruct (select_todo db task_id uid).
Qed.

(** The users table only grows, and only through registration: every
    route leaves the existing user rows in place and in order, no route
    but register adds one, and register adds at most one. *)
Theorem users_append_only gen check e db s req :
  exists added,
    users (db_of (route gen check e db s req)) = users db ++ added
    /\ (added = []
        \/ exists salt now row, e = ep_register salt now /\ added = [row]).
Proof.
  assert (Hsame : users (db_of (route gen check e db s req)) = users db ->
                  exists added,
                    users (db_of (route gen check e db s req))
                    = users db ++ added
                    /\ (added = []
                        \/ exists salt now row,
                             e = ep_register salt now /\ added = [row])).
  { intros E. exists []. rewrite E, List.app_nil_r. auto. }
  destruct e; simpl in *; unfold only in *.
  - unfold register in *. destruct (method req); [now apply Hsame|].
    destruct (negb _ || negb _); [now apply Hsame|].
    destruct (negb (Py.str_eqb _ _)); [now apply Hsame|].
    destruct (create_user _ _ _ _ _ _) as [ok d] eqn:E.
    destruct ok.
    + apply create_user_ok in E as [_ ->]. simpl.
      eexists. split; [reflexivity|]. right. eauto.
    + unfold create_user in E.
      destruct (insert_user _ _ _ _); [discriminate|].
      injection E as <-. now apply Hsame.
  - apply Hsame. unfold login. destruct (method req); [reflexivity|].
    destruct (authenticate _ _ _ _) as [uid|]; [|reflexivity].
    now destruct (Py.int_truthy uid).
  - apply Hsame. now destruct (method_eqb _ _).
  - apply Hsame. destruct (method_eqb _ _); [|reflexivity].
    unfold dashboard. now apply login_required_users.
  - apply Hsame. unfold add_task. apply login_required_users. intros uid.
    destruct (method req); [reflexivity|].
    destruct (negb _); [reflexivity|].
    unfold insert_todo. now destruct (existsb _ _).
  - apply Hsame. unfold edit_task. apply login_required_users. intros uid.
    destruct (negb (bindable db task_id)); [reflexivity|].
    destruct (select_todo db task_id uid); [|reflexivity].
    destruct (method req); [reflexivity|].
    now destruct (negb _).
  - apply Hsame. destruct (method_eqb _ _); [|reflexivity].
    unfold delete_task. apply login_required_users. intros uid.
    now destruct (negb (bindable db task_id)).
  - apply Hsame. destruct (method_eqb _ _); [|reflexivity].
    unfold toggle_task. apply login_required_users. intros uid.
    destruct (negb (bindable db task_id)); [reflexivity|].
    now destruct (select_todo db task_id uid).
Qed.

(** ** Registration and login *)

Lemma username_unique db a b :
  db_wf db -> In a (users db) -> In b (users db) ->
  username a = username b -> a = b.
Proof.
  intros W. pose proof (wf_username _ W) as Hn. revert Hn.
  generalize (users db) as l.
  induction l as [|y l IH]; simpl; intros Hn Ha Hb E; [contradiction|].
  apply NoDup_cons in Hn as [Hy Hn].
  destruct Ha as [->|Ha], Hb as [->|Hb]; auto.
  - exfalso. apply Hy. rewrite E. apply list_elem_of_In.
    now apply List.in_map.
  - exfalso. apply Hy. rewrite <- E. apply list_elem_of_In.
    now apply List.in_map.
Qed.

Lemma select_user_some db name row :
  select_user db name = Some row -> In row (users db) /\ username row = name.
Proof.
  intros H. apply List.find_some in H as [Hin H].
  now apply PyFacts.str_eqb_eq in H.
Qed.

Lemma select_user_exact db row :
  db_wf db -> In row (users db) -> select_user db (username row) = Some row.
Proof.
  intros W Hin. unfold select_user.
  destruct (List.find _ _) as [x|] eqn:E.
  - apply select_user_some in E as [Hx E].
    f_equal. now apply (username_unique db).
  - rewrite find_none_iff in E. specialize (E row Hin).
    now rewrite PyFacts.str_eqb_refl in E.
Qed.

(** [authenticate] returns an id exactly when a user row carries that very
    username (no case folding, no trimming) with that id and a stored
    hash that the password checks against; an unknown username and a
    failed check both give [None]. *)
Theorem authenticate_exact check db name password uid :
  db_wf db ->
  authenticate check db name password = Some uid <->
  exists row,
    In row (users db) /\ username row = name /\ users_id row = uid
    /\ check (password_hash row) password = true.
Proof.
  intros W. unfold authenticate. split.
  - destruct (select_user db name) as [row|] eqn:E; [|discriminate].
    apply select_user_some in E as [Hin E].
    destruct (check _ _) eqn:C; [|discriminate].
    intros [= <-]. now exists row.
  - intros (row & Hin & <- & <- & C).
    now rewrite (select_user_exact db row W Hin), C.
Qed.

(** A POST to register ends on the login page exactly when the stripped
    username and the password are not empty, the two passwords are equal
    and no user has the username; in every other case the database is
    left as it was. *)
Theorem register_accepts_exactly gen salt now db s req :
  method req = POST ->
  (resp_of (register gen salt now db s req) = Redirect url_login <->
   Py.strip (get_or_empty (form req) "username") <> []
   /\ get_or_empty (form req) "password" <> []
   /\ get_or_empty (form req) "password"
      = get_or_empty (form req) "password2"
   /\ ~ exists row,
          In row (users db)
          /\ username row = Py.strip (get_or_empty (form req) "username"))
  /\ (resp_of (register gen salt now db s req) <> Redirect url_login ->
      db_of (register gen salt now db s req) = db).
Proof.
  intros Hm. unfold register. rewrite Hm.
  destruct (Py.strip (get_or_empty (form req) "username")) as [|c nm] eqn:En.
  { simpl. split; [|reflexivity]. split; [discriminate|].
    now intros [H _]. }
  destruct (get_or_empty (form req) "password") as [|d pw] eqn:Ep.
  { simpl. split; [|reflexivity]. split; [discriminate|].
    now intros (_ & H & _). }
  cbn [Py.truthy negb orb].
  destruct (Py.str_eqb (d :: pw) (get_or_empty (form req) "password2"))
    eqn:Eq; cbn [negb].
  2:{ apply PyFacts.str_eqb_neq in Eq. simpl. split; [|reflexivity].
      split; [discriminate|]. now intros (_ & _ & H & _). }
  apply PyFacts.str_eqb_eq in Eq.
  unfold create_user, insert_user.
  destruct (existsb _ (users db)) eqn:Ex; simpl.
  - split; [|reflexivity]. split; [discriminate|].
    intros (_ & _ & _ & H). exfalso. apply H.
    apply List.existsb_exists in Ex as (row & Hin & E).
    apply PyFacts.str_eqb_eq in E. now exists row.
  - split; [|intros H; now contradiction H].
    split; [|reflexivity]. intros _.
    repeat split; try discriminate; [exact Eq|].
    intros (row & Hin & E). rewrite existsb_false_iff in Ex.
    specialize (Ex row Hin). apply PyFacts.str_eqb_neq in Ex.
    contradiction.
Qed.

(** A failed login, for an unknown username as for a wrong password,
    always gives the same answer: the redirect to the login page with the
    one message "Invalid username or password."; the database and the
    session dictionary stay as they were, so a user who was logged in
    stays logged in. *)
Theorem login_failure_uniform check db s req :
  method req = POST ->
  (select_user db (Py.strip (get_or_empty (form req) "username")) = None
   \/ exists row,
        select_user db (Py.strip (get_or_empty (form req) "username"))
        = Some row
        /\ check (password_hash row) (get_or_empty (form req) "password")
           = false) ->
  login check db s req
  = (Redirect url_login, db,
     {| data := data s;
        flashes := flashes s
                   ++ [("danger", "Invalid username or password.")] |}).
Proof.
  intros Hm H. unfold login, authenticate. rewrite Hm.
  destruct H as [-> | (row & -> & ->)]; reflexivity.
Qed.

(** In a database the application built, a login whose credentials
    [authenticate] accepts always succeeds (a stored id is never the
    falsy 0).  Its answer is the redirect to the [next] query parameter,
    taken as it is, when there is a non-empty one (a server error when
    that holds a line break), and the redirect to the dashboard
    otherwise.  The session it leaves passes the guard, and the dashboard
    without a query under it lists exactly the tasks of that user. *)
Theorem login_opens_guard check db s req uid :
  db_wf db ->
  method req = POST ->
  authenticate check db (Py.strip (get_or_empty (form req) "username"))
    (get_or_empty (form req) "password") = Some uid ->
  resp_of (login check db s req)
  = match args req !! "next" with
    | Some (c :: next) =>
        if has_newline (c :: next) then ServerError
        else Redirect (url_raw (c :: next))
    | _ => Redirect url_dashboard
    end
  /\ db_of (login check db s req) = db
  /\ session_user_id (sess_of (login check db s req)) = Some uid
  /\ forall req',
       args req' !! "q" = None ->
       exists rows,
         dashboard db (sess_of (login check db s req)) req'
         = (Render (dashboard_html rows []), db,
            sess_of (login check db s req))
         /\ Permutation rows
              (List.filter (fun r => user_id r =? uid) (todos db)).
Proof.
  intros W Hm Ha.
  assert (Hpos : uid <> 0).
  { pose proof Ha as Hrow. unfold authenticate in Hrow.
    destruct (select_user db _) as [row|] eqn:Hsel; [|discriminate].
    destruct (check _ _); [|discriminate]. injection Hrow as <-.
    apply select_user_some in Hsel as [Hin _].
    pose proof (wf_users_pos _ W) as F. rewrite List.Forall_forall in F.
    specialize (F row Hin). simpl in F. lia. }
  rewrite (login_accepted check db s req uid Hm Ha Hpos).
  unfold resp_of, db_of, sess_of. simpl.
  set (s' := {| data := _; flashes := _ |}).
  assert (Hs' : session_user_id s' = Some uid) by reflexivity.
  split; [|split; [reflexivity|split; [exact Hs'|]]].
  - unfold next_or_dashboard.
    destruct (args req !! "next") as [[|c next]|]; reflexivity.
  - intros req' Hq.
    destruct (listing_rows db s' req' uid Hs') as (rows & Hd & Hrows).
    unfold get_or_empty in Hd, Hrows. rewrite Hq in Hd, Hrows.
    simpl in Hd, Hrows.
    exists rows. split; [exact Hd|].
    rewrite Hrows.
    rewrite (List.filter_ext _ (fun r => user_id r =? uid))
      by (intros r; now rewrite andb_true_r).
    apply order_by_perm.
Qed.

(** After logout, whatever the session was, every view behind the guard
    answers with the redirect to the login page and changes nothing. *)
Theorem logout_closes_guard now task_id db s req req' :
  let s' := sess_of (logout db s req) in
  db_of (logout db s req) = db
  /\ dashboard db s' req' = (Redirect (url_login_next (path req')), db, s')
  /\ add_task now db s' req' = (Redirect (url_login_next (path req')), db, s')
  /\ edit_task task_id db s' req'
     = (Redirect (url_login_next (path req')), db, s')
  /\ delete_task task_id db s' req'
     = (Redirect (url_login_next (path req')), db, s')
  /\ toggle_task task_id db s' req'
     = (Redirect (url_login_next (path req')), db, s').
Proof. repeat split. Qed.

(** ** Creating, editing and deleting tasks *)

Lemma select_todo_new db row :
  todos_id row = next_rowid (List.map todos_id (todos db)) ->
  select_todo {| users := users db; todos := todos db ++ [row] |}
    (todos_id row) (user_id row) = Some row.
Proof.
  intros E. unfold select_todo. simpl. rewrite find_app.
  replace (List.find _ (todos db)) with (@None todo_row).
  - simpl. now rewrite !Z.eqb_refl.
  - symmetry. apply find_none_iff. intros x Hx.
    destruct (Z.eqb_spec (todos_id x) (todos_id row)) as [Hid|_];
      [|reflexivity].
    exfalso. apply (next_rowid_fresh (List.map todos_id (todos db))).
    rewrite <- E, <- Hid. now apply List.in_map.
Qed.

Lemma filter_snoc_out {A} (f : A -> bool) l x :
  f x = false -> List.filter f (l ++ [x]) = List.filter f l.
Proof.
  intros H. rewrite List.filter_app. simpl. rewrite H.
  apply List.app_nil_r.
Qed.

(** A task that was added is there: it can be selected by its new id under
    the same session, it is in the owner's listing, every earlier row is
    kept, and the dashboard of every other user shows what it showed
    before. *)
Theorem add_task_listed now db s req uid :
  session_user_id s = Some uid ->
  method req = POST ->
  Py.strip (get_or_empty (form req) "title") <> [] ->
  In uid (List.map users_id (users db)) ->
  let db' := db_of (add_task now db s req) in
  let row :=
    {| todos_id := next_rowid (List.map todos_id (todos db));
       user_id := uid;
       title := Py.strip (get_or_empty (form req) "title");
       description := Py.strip (get_or_empty (form req) "description");
       due_date := strip_or_none (get_or_empty (form req) "due_date");
       done := 0;
       created_at := now |} in
  todos db' = todos db ++ [row]
  /\ select_todo db' (todos_id row) uid = Some row
  /\ (forall req',
        args req' !! "q" = None ->
        exists rows,
          listing db' (sess_of (add_task now db s req)) req' = Some rows
          /\ In row rows)
  /\ (forall s2 req2 uid2,
        session_user_id s2 = Some uid2 -> uid2 <> uid ->
        resp_of (dashboard db' s2 req2) = resp_of (dashboard db s2 req2)).
Proof.
  intros Hs Hm Ht Hu db' row.
  assert (E : add_task now db s req
              = (Redirect url_dashboard,
                 {| users := users db; todos := todos db ++ [row] |},
                 flash "Task added." "success" s))
    by now apply add_task_creates.
  unfold db'. rewrite E. unfold db_of, sess_of. simpl.
  split; [reflexivity|]. split; [|split].
  - exact (select_todo_new db row eq_refl).
  - intros req' Hq.
    destruct (listing_rows {| users := users db; todos := todos db ++ [row] |}
                (flash "Task added." "success" s) req' uid Hs)
      as (rows & Hd & Hrows).
    exists rows. unfold listing. rewrite Hd. split; [reflexivity|].
    rewrite Hrows, order_by_In, List.filter_In. simpl. split.
    + apply List.in_or_app. right. now left.
    + unfold get_or_empty. rewrite Hq. simpl. now rewrite Z.eqb_refl.
  - intros s2 req2 uid2 Hs2 Hne.
    destruct (listing_rows {| users := users db; todos := todos db ++ [row] |}
                s2 req2 uid2 Hs2) as (rows' & Hd' & Hrows').
    destruct (listing_rows db s2 req2 uid2 Hs2) as (rows & Hd & Hrows).
    rewrite Hd', Hd. unfold resp_of. simpl. do 2 f_equal.
    rewrite Hrows', Hrows. simpl. f_equal.
    apply filter_snoc_out. simpl.
    apply andb_false_iff. left. apply Z.eqb_neq. congruence.
Qed.

(** Deleting the task that was just added gives back the database as it
    was before the task was added. *)
Theorem add_then_delete now db s req req' uid :
  session_user_id s = Some uid ->
  method req = POST ->
  Py.strip (get_or_empty (form req) "title") <> [] ->
  In uid (List.map users_id (users db)) ->
  db_of (delete_task (next_rowid (List.map todos_id (todos db)))
           (db_of (add_task now db s req))
           (sess_of (add_task now db s req)) req')
  = db.
Proof.
  intros Hs Hm Ht Hu.
  rewrite (add_task_creates now db s req uid Hs Hm Ht Hu).
  unfold db_of, sess_of. simpl.
  set (row := {| todos_id := next_rowid _; user_id := uid |}).
  unfold delete_task. rewrite (login_required_in _ _ _ _ uid) by exact Hs.
  assert (Hb : bindable {| users := users db; todos := todos db ++ [row] |}
                 (todos_id row) = true)
    by (apply bindable_stored; simpl; apply List.in_or_app; right; now left).
  cbn [todos_id row] in Hb. rewrite Hb.
  simpl negb. cbv iota. unfold delete_todo. simpl.
  rewrite filter_snoc_out by (simpl; now rewrite !Z.eqb_refl).
  rewrite filter_all; [apply db_eta|].
  intros x Hx. apply negb_true_iff, andb_false_iff. left.
  apply Z.eqb_neq. intros E.
  apply (next_rowid_fresh (List.map todos_id (todos db))).
  rewrite <- E. now apply List.in_map.
Qed.

(** With a session whose user id has no row in the users table, the
    INSERT of a task violates the foreign key: the request ends in a
    server error and nothing is stored. *)
Theorem add_task_unknown_user now db s req uid :
  session_user_id s = Some uid ->
  method req = POST ->
  Py.strip (get_or_empty (form req) "title") <> [] ->
  ~ In uid (List.map users_id (users db)) ->
  add_task now db s req = (ServerError, db, s).
Proof.
  intros Hs Hm Ht Hu. unfold add_task.
  rewrite (login_required_in _ _ _ _ _ Hs), Hm.
  destruct (Py.strip (get_or_empty (form req) "title")) as [|c r] eqn:E;
    [contradiction|].
  simpl negb. cbv iota. unfold insert_todo.
  replace (existsb _ (users db)) with false; [reflexivity|].
  symmetry. apply existsb_false_iff. intros x Hx.
  apply Z.eqb_neq. intros Hid. apply Hu. rewrite <- Hid.
  now apply List.in_map.
Qed.

Section UpdateFrame.

Variable f : todo_row -> todo_row.
Variable task_id : Z.
Hypothesis f_id : forall r, todos_id (f r) = todos_id r.
Hypothesis f_owner : forall r, user_id (f r) = user_id r.

Let g (r : todo_row) : todo_row := if todos_id r =? task_id then f r else r.

(** An UPDATE keyed by id leaves the rows with another id alone. *)
Lemma map_frame l t :
  todos_id t <> task_id -> In t (List.map g l) <-> In t l.
Proof.
  intros Ht. rewrite List.in_map_iff. unfold g. split.
  - intros (x & E & Hx).
    destruct (Z.eqb_spec (todos_id x) task_id) as [Hid|_]; [|now subst].
    exfalso. apply Ht. now rewrite <- E, f_id.
  - intros Hin. exists t. split; [|assumption].
    apply Z.eqb_neq in Ht. now rewrite Ht.
Qed.

Lemma map_keys l : List.map todos_id (List.map g l) = List.map todos_id l.
Proof.
  rewrite List.map_map. apply List.map_ext. intros r. unfold g.
  destruct (todos_id r =? task_id); [apply f_id|reflexivity].
Qed.

(** When the id belongs to a row of [uid], the rows of other users are
    left alone too. *)
Lemma foreign_frame db uid task t :
  db_wf db -> select_todo db task_id uid = Some task ->
  user_id t <> uid ->
  In t (List.map g (todos db)) <-> In t (todos db).
Proof.
  intros W Hsel Ht.
  apply select_todo_In in Hsel as (Hin & Hid & Hu).
  assert (Hother : forall x, In x (todos db) -> todos_id x = task_id ->
                             x = task).
  { intros x Hx E.
    apply (key_unique todos_id _ _ _ (wf_todos_id _ W) Hx Hin).
    congruence. }
  rewrite List.in_map_iff. unfold g. split.
  - intros (x & E & Hx).
    destruct (Z.eqb_spec (todos_id x) task_id) as [Hx'|_]; [|now subst].
    exfalso. apply Ht. rewrite <- E, f_owner, (Hother x Hx Hx'). exact Hu.
  - intros Hx. exists t. split; [|assumption].
    destruct (Z.eqb_spec (todos_id t) task_id) as [Hx'|_]; [|reflexivity].
    exfalso. apply Ht. now rewrite (Hother t Hx Hx').
Qed.

End UpdateFrame.

(** Editing a task the caller owns, with a non-empty title, rewrites the
    title, description, due date and done flag of that task from the form
    ([done] is 1 only for the value "on", an empty due date becomes NULL)
    and keeps its id, owner and creation time; no row is added or
    removed, and every other row and the users table stay as they
    were. *)
Theorem edit_task_updates db s req uid task_id task :
  db_wf db ->
  session_user_id s = Some uid ->
  method req = POST ->
  select_todo db task_id uid = Some task ->
  Py.strip (get_or_empty (form req) "title") <> [] ->
  exists db',
    edit_task task_id db s req
    = (Redirect url_dashboard, db', flash "Task updated." "success" s)
    /\ select_todo db' task_id uid
       = Some {| todos_id := todos_id task;
                 user_id := user_id task;
                 title := Py.strip (get_or_empty (form req) "title");
                 description :=
                   Py.strip (get_or_empty (form req) "description");
                 due_date :=
                   strip_or_none (get_or_empty (form req) "due_date");
                 done :=
                   if bool_decide (form req !! "done" = Some (Py.lit "on"))
                   then 1 else 0;
                 created_at := created_at task |}
    /\ users db' = users db
    /\ List.map todos_id (todos db') = List.map todos_id (todos db)
    /\ forall t, todos_id t <> task_id ->
                 In t (todos db') <-> In t (todos db).
Proof.
  intros W Hs Hm Hsel Ht.
  set (ttl := Py.strip (get_or_empty (form req) "title")) in *.
  set (descr := Py.strip (get_or_empty (form req) "description")).
  set (due := strip_or_none (get_or_empty (form req) "due_date")).
  set (dn := if bool_decide (form req !! "done" = Some (Py.lit "on"))
             then 1 else 0).
  exists (update_todo db task_id ttl descr due dn).
  assert (Hdn : dn = 0 \/ dn = 1) by (unfold dn; destruct (bool_decide _); auto).
  pose proof (update_todo_wf db task_id ttl descr due dn Ht Hdn W) as W'.
  destruct (select_todo_In _ _ _ _ Hsel) as (Hin & Hid & Hu).
  split; [|split; [|split; [|split]]].
  - unfold edit_task. rewrite (login_required_in _ _ _ _ _ Hs).
    rewrite (bindable_selected _ _ _ _ Hsel), Hsel, Hm.
    fold ttl. destruct ttl; [contradiction|]. reflexivity.
  - set (row' := {| todos_id := todos_id task; user_id := _ |}).
    assert (Hin' : In row' (todos (update_todo db task_id ttl descr due dn))).
    { simpl. apply List.in_map_iff. exists task.
      split; [|assumption].
      replace (todos_id task =? task_id) with true; [reflexivity|].
      symmetry. now apply Z.eqb_eq. }
    pose proof (select_todo_own _ row' W' Hin') as Hown.
    simpl in Hown. now rewrite Hid, Hu in Hown.
  - reflexivity.
  - simpl. now apply map_keys.
  - intros t Hne. simpl. now apply map_frame.
Qed.

(** A toggle adds and removes no row and leaves every row with another
    id, and the users table, as they were. *)
Theorem toggle_keeps_other_rows db s req task_id :
  users (db_of (toggle_task task_id db s req)) = users db
  /\ List.map todos_id (todos (db_of (toggle_task task_id db s req)))
     = List.map todos_id (todos db)
  /\ forall t, todos_id t <> task_id ->
               In t (todos (db_of (toggle_task task_id db s req)))
               <-> In t (todos db).
Proof.
  unfold toggle_task, login_required, with_user.
  destruct (data s !! "user_id"); [|now repeat split].
  destruct (session_user_id s) as [uid|]; [|now repeat split].
  destruct (negb (bindable db task_id)); [now repeat split|].
  destruct (select_todo db task_id uid) as [row|]; [|now repeat split].
  unfold db_of. simpl. split; [reflexivity|]. split.
  - now apply map_keys.
  - intros t Hne. now apply map_frame.
Qed.

Lemma register_todos gen salt now db s req :
  todos (db_of (register gen salt now db s req)) = todos db.
Proof.
  unfold register. destruct (method req); [reflexivity|].
  destruct (negb _ || negb _); [reflexivity|].
  destruct (negb (Py.str_eqb _ _)); [reflexivity|].
  unfold create_user, insert_user.
  now destruct (existsb _ _).
Qed.

(** Whatever a logged-in user requests, on any route, the tasks of every
    other user stay exactly as they were: none is changed, removed or
    added. *)
Theorem other_users_rows_untouched gen check e db s req uid t :
  db_wf db ->
  session_user_id s = Some uid ->
  user_id t <> uid ->
  In t (todos (db_of (route gen check e db s req))) <-> In t (todos db).
Proof.
  intros W Hs Ht. destruct e; simpl; unfold only.
  - now rewrite register_todos.
  - replace (db_of (login check db s req)) with db; [reflexivity|].
    unfold login. destruct (method req); [reflexivity|].
    destruct (authenticate _ _ _ _) as [u|]; [|reflexivity].
    now destruct (Py.int_truthy u).
  - now destruct (method_eqb _ _).
  - destruct (method_eqb _ _); [|reflexivity].
    unfold dashboard. now rewrite (login_required_in _ _ _ _ _ Hs).
  - unfold add_task. rewrite (login_required_in _ _ _ _ _ Hs).
    destruct (method req); [reflexivity|].
    destruct (negb _); [reflexivity|].
    unfold insert_todo. destruct (existsb _ _); [|reflexivity].
    unfold db_of. simpl. rewrite List.in_app_iff. simpl. split.
    + intros [H|[<-|[]]]; [assumption|]. now contradiction Ht.
    + auto.
  - unfold edit_task. rewrite (login_required_in _ _ _ _ _ Hs).
    destruct (negb (bindable db task_id)); [reflexivity|].
    destruct (select_todo db task_id uid) as [task|] eqn:Hsel; [|reflexivity].
    destruct (method req); [reflexivity|].
    destruct (negb _); [reflexivity|].
    unfold db_of. simpl.
    apply foreign_frame with (uid := uid) (task := task);
      try assumption; reflexivity.
  - destruct (method_eqb _ _); [|reflexivity].
    unfold delete_task. rewrite (login_required_in _ _ _ _ _ Hs).
    destruct (negb (bindable db task_id)); [reflexivity|].
    unfold db_of. simpl. rewrite List.filter_In. split; [tauto|].
    intros Hin. split; [assumption|].
    apply negb_true_iff, andb_false_iff. right. now apply Z.eqb_neq.
  - destruct (method_eqb _ _); [|reflexivity].
    unfold toggle_task. rewrite (login_required_in _ _ _ _ _ Hs).
    destruct (negb (bindable db task_id)); [reflexivity|].
    destruct (select_todo db task_id uid) as [task|] eqn:Hsel; [|reflexivity].
    unfold db_of. simpl.
    apply foreign_frame with (uid := uid) (task := task);
      try assumption; reflexivity.
Qed.

(** ** Listing edge cases *)

(** A query that is absent, empty or made of whitespace only is no query:
    the dashboard lists all the caller's tasks, in the listing order, and
    hands the empty string to the template. *)
Theorem dashboard_blank_query db s req uid :
  session_user_id s = Some uid ->
  forallb Py.isspace (get_or_empty (args req) "q") = true ->
  exists rows,
    dashboard db s req = (Render (dashboard_html rows []), db, s)
    /\ Permutation rows (List.filter (fun r => user_id r =? uid) (todos db))
    /\ StronglySorted order_rel rows.
Proof.
  intros Hs Hb. apply PyFacts.strip_nil in Hb.
  destruct (listing_rows db s req uid Hs) as (rows & E & Hrows).
  rewrite Hb in *. exists rows. split; [exact E|].
  assert (Hr : rows = order_by order_leb
                        (List.filter (fun r => user_id r =? uid) (todos db))).
  { rewrite Hrows. f_equal. apply List.filter_ext.
    intros r. simpl. now rewrite andb_true_r. }
  rewrite Hr. split; [apply order_by_perm|apply order_by_sorted].
Qed.

Lemma like_all_percent p t :
  p <> [] -> Forall (fun c => c = Sql.percent) p -> Sql.like p t = true.
Proof.
  intros Hne H.
  assert (Hm : forall t, Sql.like_match p t = true).
  { clear t. induction H as [|c p -> Hp IH]; [contradiction|]. intros t.
    destruct p as [|c' p'].
    - apply SqlFacts.like_percent.
    - assert (IH' : forall t, Sql.like_match (c' :: p') t = true)
        by (apply IH; discriminate).
      change (Sql.like_match (Sql.percent :: c' :: p') t)
        with ((fix any (t : list N) : bool :=
                 Sql.like_match (c' :: p') t
                 || match t with [] => false | _ :: t' => any t' end) t).
      destruct t; now rewrite IH'. }
  unfold Sql.like. rewrite (SqlFacts.c_string_nul_free p); [apply Hm|].
  clear Hm Hne t. induction H as [|c p -> _ IH]; [reflexivity|].
  simpl. exact IH.
Qed.

(** The wildcards of LIKE are not escaped in the query: a search for [%]
    (or any run of [%] that keeps the pattern within the engine's limit
    of 50000 bytes) lists every task of the caller, whatever its title
    and description. *)
Theorem search_percent_lists_all db s req uid raw :
  session_user_id s = Some uid ->
  args req !! "q" = Some raw ->
  Py.strip raw <> [] ->
  Forall (fun c => c = Sql.percent) (Py.strip raw) ->
  within_like_limit (Py.strip raw) = true ->
  exists rows,
    dashboard db s req = (Render (dashboard_html rows (Py.strip raw)), db, s)
    /\ Permutation rows (List.filter (fun r => user_id r =? uid) (todos db)).
Proof.
  intros Hs Hq Hne Hp _.
  destruct (listing_rows db s req uid Hs) as (rows & E & Hrows).
  assert (Hg : get_or_empty (args req) "q" = raw)
    by (unfold get_or_empty; now rewrite Hq).
  rewrite Hg in *. exists rows. split; [exact E|].
  assert (Hr : rows = order_by order_leb
                        (List.filter (fun r => user_id r =? uid) (todos db))).
  { rewrite Hrows. f_equal. apply List.filter_ext. intros r.
    rewrite (like_all_percent _ (title r)).
    - now rewrite orb_true_r, andb_true_r.
    - discriminate.
    - constructor; [reflexivity|].
      apply Forall_app. split; [assumption|]. now constructor. }
  rewrite Hr. apply order_by_perm.
Qed.

(** ** The further statements at the run *)

Lemma db_milk_reachable : reachable plain_generate plain_check db_milk.
Proof.
  exact (reachable_step plain_generate plain_check db_users
           (ep_add_task (Py.lit "2024-05-01T10:00:00.000001")) alice
           (new_task "Buy Milk")
           (reachable_step plain_generate plain_check db_alice
              (ep_register (Py.lit "Qz8w") (Py.lit "2024-05-01T09:05:00.450000"))
              no_session (registration "bob" "pw456")
              (reachable_step plain_generate plain_check empty_db
                 (ep_register (Py.lit "k3Jx")
                    (Py.lit "2024-05-01T09:00:00.120000"))
                 no_session (registration " alice " "pw123")
                 (reachable_init plain_generate plain_check)))).
Qed.

Lemma reachable_wf_witness :
  reachable plain_generate plain_check db_milk /\ db_wf db_milk.
Proof.
  split; [exact db_milk_reachable|].
  exact (reachable_wf plain_generate plain_check db_milk db_milk_reachable).
Defined.

Lemma guard_redirects_witness :
  data no_session !! "user_id" = None
  /\ delete_task 1 db_milk no_session (mk_request POST [] [])
     = (Redirect (url_login_next (path (mk_request POST [] []))), db_milk,
        no_session).
Proof.
  split; [reflexivity|].
  apply (guard_redirects [] 1 db_milk no_session (mk_request POST [] [])).
  reflexivity.
Defined.

Lemma get_is_read_only_witness :
  method (mk_request GET [] []) = GET
  /\ db_of (route plain_generate plain_check (ep_delete_task 1) db_milk alice
              (mk_request GET [] []))
     = db_milk.
Proof.
  split; [reflexivity|].
  apply (get_is_read_only plain_generate plain_check (ep_delete_task 1)
           db_milk alice (mk_request GET [] [])).
  reflexivity.
Defined.

Lemma identity_written_by_login_logout_only_witness :
  ep_delete_task 1 <> ep_login /\ ep_delete_task 1 <> ep_logout
  /\ data (sess_of (route plain_generate plain_check (ep_delete_task 1)
                      db_milk alice (mk_request POST [] [])))
     = data alice.
Proof.
  split; [discriminate|]. split; [discriminate|].
  apply (identity_written_by_login_logout_only plain_generate plain_check
           (ep_delete_task 1) db_milk alice (mk_request POST [] []));
    discriminate.
Defined.

Lemma authenticate_exact_witness :
  db_wf db_users
  /\ (authenticate plain_check db_users (Py.lit "alice") (Py.lit "pw123")
      = Some 1 <->
      exists row,
        In row (users db_users) /\ username row = Py.lit "alice"
        /\ users_id row = 1
        /\ plain_check (password_hash row) (Py.lit "pw123") = true).
Proof.
  split; [exact db_users_wf|].
  apply (authenticate_exact plain_check db_users (Py.lit "alice")
           (Py.lit "pw123") 1).
  exact db_users_wf.
Defined.

Lemma register_accepts_exactly_witness :
  method (registration "alice" "pw") = POST
  /\ resp_of (register plain_generate (Py.lit "Zs1p")
                (Py.lit "2024-05-02T08:00:00") db_users no_session
                (registration "alice" "pw"))
     <> Redirect url_login
  /\ db_of (register plain_generate (Py.lit "Zs1p")
              (Py.lit "2024-05-02T08:00:00") db_users no_session
              (registration "alice" "pw"))
     = db_users.
Proof.
  split; [reflexivity|]. split; [discriminate|].
  apply (register_accepts_exactly plain_generate (Py.lit "Zs1p")
           (Py.lit "2024-05-02T08:00:00") db_users no_session
           (registration "alice" "pw")).
  - reflexivity.
  - discriminate.
Defined.

Lemma login_failure_uniform_witness :
  method (credentials "mallory" "pw123") = POST
  /\ select_user db_users
       (Py.strip (get_or_empty (form (credentials "mallory" "pw123"))
                    "username"))
     = None
  /\ login plain_check db_users alice (credentials "mallory" "pw123")
     = (Redirect url_login, db_users,
        {| data := data alice;
           flashes := flashes alice
                      ++ [("danger", "Invalid username or password.")] |}).
Proof.
  split; [reflexivity|]. split; [reflexivity|].
  apply (login_failure_uniform plain_check db_users alice
           (credentials "mallory" "pw123")).
  - reflexivity.
  - left. reflexivity.
Defined.

Lemma login_opens_guard_witness :
  db_wf db_milk
  /\ method (credentials "alice" "pw123") = POST
  /\ authenticate plain_check db_milk
       (Py.strip (get_or_empty (form (credentials "alice" "pw123"))
                    "username"))
       (get_or_empty (form (credentials "alice" "pw123")) "password")
     = Some 1
  /\ session_user_id
       (sess_of (login plain_check db_milk no_session
                   (credentials "alice" "pw123")))
     = Some 1.
Proof.
  split; [exact db_milk_wf|]. split; [reflexivity|]. split; [reflexivity|].
  apply (login_opens_guard plain_check db_milk no_session
           (credentials "alice" "pw123") 1).
  - exact db_milk_wf.
  - reflexivity.
  - reflexivity.
Defined.

Lemma add_task_listed_witness :
  session_user_id alice = Some 1
  /\ method (new_task "Buy Milk") = POST
  /\ Py.strip (get_or_empty (form (new_task "Buy Milk")) "title") <> []
  /\ In 1 (List.map users_id (users db_users))
  /\ todos db_milk = todos db_users ++ [milk_row]
  /\ select_todo db_milk 1 1 = Some milk_row.
Proof.
  split; [reflexivity|]. split; [reflexivity|]. split; [discriminate|].
  split; [left; reflexivity|].
  destruct (add_task_listed (Py.lit "2024-05-01T10:00:00.000001") db_users
              alice (new_task "Buy Milk") 1 eq_refl eq_refl
              ltac:(discriminate) (or_introl eq_refl)) as (Ht & Hsel & _).
  split; [exact Ht|exact Hsel].
Defined.

Lemma add_then_delete_witness :
  session_user_id alice = Some 1
  /\ method (new_task "Buy Milk") = POST
  /\ Py.strip (get_or_empty (form (new_task "Buy Milk")) "title") <> []
  /\ In 1 (List.map users_id (users db_users))
  /\ db_of (delete_task (next_rowid (List.map todos_id (todos db_users)))
              (db_of (add_task (Py.lit "2024-05-01T10:00:00.000001") db_users
                        alice (new_task "Buy Milk")))
              (sess_of (add_task (Py.lit "2024-05-01T10:00:00.000001")
                          db_users alice (new_task "Buy Milk")))
              (mk_request POST [] []))
     = db_users.
Proof.
  split; [reflexivity|]. split; [reflexivity|]. split; [discriminate|].
  split; [left; reflexivity|].
  apply (add_then_delete (Py.lit "2024-05-01T10:00:00.000001") db_users alice
           (new_task "Buy Milk") (mk_request POST [] []) 1).
  - reflexivity.
  - reflexivity.
  - discriminate.
  - left. reflexivity.
Defined.

Lemma add_task_unknown_user_witness :
  session_user_id (session_of 7 (Py.lit "ghost")) = Some 7
  /\ method (new_task "Haunt") = POST
  /\ Py.strip (get_or_empty (form (new_task "Haunt")) "title") <> []
  /\ ~ In 7 (List.map users_id (users db_users))
  /\ add_task (Py.lit "2024-05-03T10:00:00") db_users
       (session_of 7 (Py.lit "ghost")) (new_task "Haunt")
     = (ServerError, db_users, session_of 7 (Py.lit "ghost")).
Proof.
  assert (H : ~ In 7 (List.map users_id (users db_users))).
  { simpl. intros [H|[H|[]]]; discriminate. }
  split; [reflexivity|]. split; [reflexivity|]. split; [discriminate|].
  split; [exact H|].
  apply (add_task_unknown_user (Py.lit "2024-05-03T10:00:00") db_users
           (session_of 7 (Py.lit "ghost")) (new_task "Haunt") 7).
  - reflexivity.
  - reflexivity.
  - discriminate.
  - exact H.
Defined.

Lemma edit_task_updates_witness :
  db_wf db_milk
  /\ session_user_id alice = Some 1
  /\ method (mk_request POST
               [("title", Py.lit " Buy oat milk "); ("done", Py.lit "on")] [])
     = POST
  /\ select_todo db_milk 1 1 = Some milk_row
  /\ Py.strip (get_or_empty
                 (form (mk_request POST
                          [("title", Py.lit " Buy oat milk ");
                           ("done", Py.lit "on")] []))
                 "title") <> []
  /\ exists db',
       edit_task 1 db_milk alice
         (mk_request POST
            [("title", Py.lit " Buy oat milk "); ("done", Py.lit "on")] [])
       = (Redirect url_dashboard, db',
          flash "Task updated." "success" alice)
       /\ select_todo db' 1 1
          = Some {| todos_id := 1;
                    user_id := 1;
                    title := Py.lit "Buy oat milk";
                    description := [];
                    due_date := None;
                    done := 1;
                    created_at := Py.lit "2024-05-01T10:00:00.000001" |}.
Proof.
  split; [exact db_milk_wf|]. split; [reflexivity|]. split; [reflexivity|].
  split; [reflexivity|]. split; [discriminate|].
  destruct (edit_task_updates db_milk alice
              (mk_request POST
                 [("title", Py.lit " Buy oat milk "); ("done", Py.lit "on")] [])
              1 1 milk_row db_milk_wf eq_refl eq_refl eq_refl
              ltac:(discriminate)) as (db' & He & Hsel & _).
  exists db'. split; [exact He|exact Hsel].
Defined.

Lemma other_users_rows_untouched_witness :
  db_wf db_milk
  /\ session_user_id bob = Some 2
  /\ user_id milk_row <> 2
  /\ (In milk_row
        (todos (db_of (route plain_generate plain_check (ep_delete_task 1)
                         db_milk bob (mk_request POST [] []))))
      <-> In milk_row (todos db_milk)).
Proof.
  split; [exact db_milk_wf|]. split; [reflexivity|]. split; [discriminate|].
  apply (other_users_rows_untouched plain_generate plain_check
           (ep_delete_task 1) db_milk bob (mk_request POST [] []) 2 milk_row).
  - exact db_milk_wf.
  - reflexivity.
  - discriminate.
Defined.

Lemma dashboard_blank_query_witness :
  session_user_id alice = Some 1
  /\ forallb Py.isspace (get_or_empty (args (search_for "   ")) "q") = true
  /\ exists rows,
       dashboard db_three alice (search_for "   ")
       = (Render (dashboard_html rows []), db_three, alice)
       /\ Permutation rows
            (List.filter (fun r => user_id r =? 1) (todos db_three))
       /\ StronglySorted order_rel rows.
Proof.
  split; [reflexivity|]. split; [reflexivity|].
  apply (dashboard_blank_query db_three alice (search_for "   ") 1);
    reflexivity.
Defined.

Lemma search_percent_lists_all_witness :
  session_user_id alice = Some 1
  /\ args (search_for "%") !! "q" = Some (Py.lit "%")
  /\ Py.strip (Py.lit "%") <> []
  /\ Forall (fun c => c = Sql.percent) (Py.strip (Py.lit "%"))
  /\ within_like_limit (Py.strip (Py.lit "%")) = true
  /\ exists rows,
       dashboard db_three alice (search_for "%")
       = (Render (dashboard_html rows (Py.strip (Py.lit "%"))),
          db_three, alice)
       /\ Permutation rows
            (List.filter (fun r => user_id r =? 1) (todos db_three)).
Proof.
  assert (H : Forall (fun c => c = Sql.percent) (Py.strip (Py.lit "%")))
    by (repeat constructor).
  split; [reflexivity|]. split; [reflexivity|]. split; [discriminate|].
  split; [exact H|]. split; [reflexivity|].
  apply (search_percent_lists_all db_three alice (search_for "%") 1
           (Py.lit "%")).
  - reflexivity.
  - reflexivity.
  - discriminate.
  - exact H.
  - reflexivity.
Defined.

(** ** Worked examples of the error paths *)

(** A task id the engine cannot hold ends edit, toggle and delete in a
    server error; the largest id it holds is answered as usual. *)
Example bind_overflow_ex :
  resp_of (edit_task (2 ^ 63) db_milk alice (mk_request GET [] []))
  = ServerError
  /\ resp_of (toggle_task (2 ^ 63) db_milk alice (mk_request POST [] []))
     = ServerError
  /\ resp_of (delete_task (2 ^ 63) db_milk alice (mk_request POST [] []))
     = ServerError
  /\ resp_of (delete_task (2 ^ 63 - 1) db_milk alice (mk_request POST [] []))
     = Redirect url_dashboard
  /\ resp_of (edit_task (2 ^ 63 - 1) db_milk alice (mk_request GET [] []))
     = Abort404.
Proof. repeat split; reflexivity. Qed.

(** LIKE reads pattern and text up to the first NUL: the pattern of the
    query "x" followed by NUL matches "box", and "milk" is not found in a
    text that has it after a NUL. *)
Example like_nul_ex :
  Sql.like ([37; 120; 0; 37]%N) (Py.lit "box") = true
  /\ Sql.like (Py.lit "%milk%") ([97; 0; 109; 105; 108; 107]%N) = false.
Proof. split; reflexivity. Qed.

(** A [next] parameter with a line break ends a successful login in a
    server error. *)
Example login_next_newline_ex :
  resp_of (login plain_check db_users no_session
             (credentials_next "alice" "pw123" [47; 97; 10; 98]%N))
  = ServerError
  /\ resp_of (login plain_check db_users no_session
                (credentials_next "alice" "pw123" [47; 97]%N))
     = Redirect (url_raw [47; 97]%N).
Proof. split; reflexivity. Qed.
